(** * codex-action OAuth proxy: model of the source and its properties

    Shallow embedding of the TypeScript sources
      - src/oauth/modelMap.ts          (MODEL_MAP, normalizeModel)
      - src/oauth/tokenManager.ts      (decodeJWT, getAccountId, loadTokens,
                                        shouldRefreshToken, refreshAccessToken,
                                        fetchFromRelay, ensureValidToken)
      - src/oauth/requestTransformer.ts (transformRequestBody, filterInput)
      - src/oauth/responseHandler.ts   (handleUpstreamResponse, convertSseToJson,
                                        parseSseStream, isUsageLimitBody)
      - src/oauthProxy.ts              (handleRequest)

    Conventions.
      - A JavaScript string is the [string] of its UTF-8 bytes, which is
        what [end(text)] sends; bytes received become text through the
        platform's UTF-8 decoder ([response.text()], [TextDecoder]), and
        chunks piped with [write] stay bytes.  [toLowerCase] acts on the
        ASCII letters.
      - TypeScript types are erased at run time, so a field read from a parsed
        JSON document is a [value] of any shape; the functions below follow
        what JavaScript does on each shape (truthiness, [===], property reads,
        [TypeError] on a call of [undefined]).
      - Numbers are integers ([Z]); timestamps are integer milliseconds.
      - An object is the list of its own properties in insertion order.
      - A [throw] (or a rejected promise) is the [Throw] outcome; a function
        that mutates its argument returns the object as it leaves it. *)

From Stdlib Require Import String Ascii List ZArith Bool Lia DecimalString.
Import ListNotations.
Local Open Scope string_scope.
Local Open Scope Z_scope.
Set Warnings "-register-all".

(* ------------------------------------------------------------------ *)
(** ** Strings *)

Definition lower_ascii (c : ascii) : ascii :=
  let n := nat_of_ascii c in
  if (Nat.leb 65 n && Nat.leb n 90)%bool then ascii_of_nat (n + 32) else c.

(** [s.toLowerCase()] *)
Fixpoint toLowerCase (s : string) : string :=
  match s with
  | EmptyString => EmptyString
  | String c t => String (lower_ascii c) (toLowerCase t)
  end.

(** [s.startsWith(p)] *)
Definition startsWith (p s : string) : bool := String.prefix p s.

(** [hay.includes(needle)] *)
Fixpoint includes (needle hay : string) : bool :=
  String.prefix needle hay ||
  match hay with
  | EmptyString => false
  | String _ t => includes needle t
  end.

(** [s.split(sep)] for a one-character separator: never empty. *)
Fixpoint split_on (sep : ascii) (s : string) : list string :=
  match s with
  | EmptyString => [EmptyString]
  | String c t =>
      if Ascii.eqb c sep then EmptyString :: split_on sep t
      else match split_on sep t with
           | h :: r => String c h :: r
           | [] => [String c EmptyString]
           end
  end.

(** [l.pop()] on the result of a split: the last segment. *)
Definition pop (l : list string) : string := List.last l EmptyString.

(** [s.substring(n)] *)
Fixpoint substring_from (n : nat) (s : string) : string :=
  match n, s with
  | O, _ => s
  | S n', String _ t => substring_from n' t
  | S _, EmptyString => EmptyString
  end.

(** [s.includes(c)] for a one-character needle, as a proposition. *)
Fixpoint has_char (c : ascii) (s : string) : Prop :=
  match s with
  | EmptyString => False
  | String d t => d = c \/ has_char c t
  end.

(* ------------------------------------------------------------------ *)
(** ** Run-time values *)

(** The values the proxy handles: what [JSON.parse] returns, plus the members
    of [Object.prototype], which a property read on an object literal can
    reach ([JBuiltin]). *)
Inductive value : Type :=
| JNull
| JBool (b : bool)
| JNum (z : Z)
| JStr (s : string)
| JArr (items : list value)
| JObj (fields : list (string * value))
| JBuiltin (name : string).

Definition object := list (string * value).

(** JavaScript truthiness ([if (v)], [!v]). *)
Definition truthy (v : value) : bool :=
  match v with
  | JNull => false
  | JBool b => b
  | JNum z => negb (z =? 0)
  | JStr s => negb (String.eqb s "")
  | JArr _ | JObj _ | JBuiltin _ => true
  end.

(** Truthiness of a property read, where [None] is [undefined]. *)
Definition truthy_opt (v : option value) : bool :=
  match v with
  | Some x => truthy x
  | None => false
  end.

(** Own-property read [o[k]]. *)
Fixpoint get (k : string) (o : object) : option value :=
  match o with
  | [] => None
  | (k', v) :: rest => if String.eqb k k' then Some v else get k rest
  end.

(** [delete o[k]] *)
Fixpoint delete (k : string) (o : object) : object :=
  match o with
  | [] => []
  | (k', v) :: rest =>
      if String.eqb k k' then delete k rest else (k', v) :: delete k rest
  end.

(** [o[k] = v]: an existing property keeps its place, a new one goes last. *)
Fixpoint set (k : string) (v : value) (o : object) : object :=
  match o with
  | [] => [(k, v)]
  | (k', v') :: rest =>
      if String.eqb k k' then (k, v) :: delete k rest
      else (k', v') :: set k v rest
  end.

(** Outcome of a computation that may throw. *)
Inductive outcome (A : Type) : Type :=
| Ok (a : A)
| Throw (msg : string).
Arguments Ok {A} a.
Arguments Throw {A} msg.

Definition bind {A B : Type} (m : outcome A) (f : A -> outcome B) : outcome B :=
  match m with
  | Ok a => f a
  | Throw msg => Throw msg
  end.

Notation "'let*' x ':=' m 'in' k" := (bind m (fun x => k))
  (at level 10, x pattern, m at level 100, k at level 200).

(** [v.k] on a value that is not known to be an object: a property read on
    [null] throws; on any other value without that property it is
    [undefined].  Used for keys that no built-in prototype defines. *)
Definition prop (v : value) (k : string) : outcome (option value) :=
  match v with
  | JNull => Throw "TypeError: cannot read properties of null"
  | JObj o => Ok (get k o)
  | _ => Ok None
  end.

(** [v?.k], with [v] possibly [undefined]. *)
Definition prop_opt (v : option value) (k : string) : option value :=
  match v with
  | Some (JObj o) => get k o
  | _ => None
  end.

(** [a === b] against a string literal. *)
Definition is_str (lit : string) (v : option value) : bool :=
  match v with
  | Some (JStr s) => String.eqb s lit
  | _ => false
  end.

(** JavaScript numbers as far as the token manager computes with them. *)
Inductive number : Type :=
| Num (z : Z)
| NaN.

(** What the host provides: the built-ins the sources call. *)
Class Platform : Type := {
  (** [JSON.parse(s)], [None] when it throws *)
  JSON_parse : string -> option value;
  (** [JSON.stringify(v)], [None] when the result is [undefined] *)
  JSON_stringify : value -> option string;
  (** [Buffer.from(s, "base64").toString("utf-8")] *)
  base64_utf8 : string -> string;
  (** The text [response.text()] decodes from the bytes of a body *)
  decode_text : string -> string;
  (** The texts [decoder.decode(value, { stream: true })] returns for the
      chunks of a body, in order and joined, for a new [TextDecoder] *)
  decode_stream : list string -> string;
  (** [String(v)] for an array [v] used as a property key *)
  ToString : value -> string;
  (** [Number(v)] for a [v] that is not a number *)
  ToNumber : value -> number
}.

(* ------------------------------------------------------------------ *)
(** ** modelMap.ts *)

Definition MODEL_MAP : list (string * string) :=
  [ ("gpt-5.1-codex", "gpt-5.1-codex");
    ("gpt-5.1-codex-low", "gpt-5.1-codex");
    ("gpt-5.1-codex-medium", "gpt-5.1-codex");
    ("gpt-5.1-codex-high", "gpt-5.1-codex");

    ("gpt-5.1-codex-max", "gpt-5.1-codex-max");
    ("gpt-5.1-codex-max-low", "gpt-5.1-codex-max");
    ("gpt-5.1-codex-max-medium", "gpt-5.1-codex-max");
    ("gpt-5.1-codex-max-high", "gpt-5.1-codex-max");
    ("gpt-5.1-codex-max-xhigh", "gpt-5.1-codex-max");

    ("gpt-5.2", "gpt-5.2");
    ("gpt-5.2-none", "gpt-5.2");
    ("gpt-5.2-low", "gpt-5.2");
    ("gpt-5.2-medium", "gpt-5.2");
    ("gpt-5.2-high", "gpt-5.2");
    ("gpt-5.2-xhigh", "gpt-5.2");

    ("gpt-5.2-codex", "gpt-5.2-codex");
    ("gpt-5.2-codex-low", "gpt-5.2-codex");
    ("gpt-5.2-codex-medium", "gpt-5.2-codex");
    ("gpt-5.2-codex-high", "gpt-5.2-codex");
    ("gpt-5.2-codex-xhigh", "gpt-5.2-codex");

    ("gpt-5.1-codex-mini", "gpt-5.1-codex-mini");
    ("gpt-5.1-codex-mini-medium", "gpt-5.1-codex-mini");
    ("gpt-5.1-codex-mini-high", "gpt-5.1-codex-mini");

    ("gpt-5.1", "gpt-5.1");
    ("gpt-5.1-none", "gpt-5.1");
    ("gpt-5.1-low", "gpt-5.1");
    ("gpt-5.1-medium", "gpt-5.1");
    ("gpt-5.1-high", "gpt-5.1");
    ("gpt-5.1-chat-latest", "gpt-5.1");

    ("gpt-5.3", "gpt-5.3");
    ("gpt-5.3-none", "gpt-5.3");
    ("gpt-5.3-low", "gpt-5.3");
    ("gpt-5.3-medium", "gpt-5.3");
    ("gpt-5.3-high", "gpt-5.3");
    ("gpt-5.3-xhigh", "gpt-5.3");

    ("gpt-5.3-codex", "gpt-5.3-codex");
    ("gpt-5.3-codex-low", "gpt-5.3-codex");
    ("gpt-5.3-codex-medium", "gpt-5.3-codex");
    ("gpt-5.3-codex-high", "gpt-5.3-codex");
    ("gpt-5.3-codex-xhigh", "gpt-5.3-codex");

    ("gpt-5-codex", "gpt-5.1-codex");
    ("codex-mini-latest", "gpt-5.1-codex-mini");
    ("gpt-5-codex-mini", "gpt-5.1-codex-mini");
    ("gpt-5-codex-mini-medium", "gpt-5.1-codex-mini");
    ("gpt-5-codex-mini-high", "gpt-5.1-codex-mini");
    ("gpt-5", "gpt-5.1");
    ("gpt-5-mini", "gpt-5.1");
    ("gpt-5-nano", "gpt-5.1") ].

(** Own entry of the table. *)
Fixpoint own_entry (k : string) (m : list (string * string)) : option string :=
  match m with
  | [] => None
  | (k', v) :: rest => if String.eqb k k' then Some v else own_entry k rest
  end.

(** [MODEL_MAP] is an object literal: a read of a key it does not own goes up
    to [Object.prototype], whose members are all truthy. *)
Definition Object_prototype_keys : list string :=
  [ "constructor"; "__defineGetter__"; "__defineSetter__"; "hasOwnProperty";
    "__lookupGetter__"; "__lookupSetter__"; "isPrototypeOf";
    "propertyIsEnumerable"; "toString"; "valueOf"; "__proto__";
    "toLocaleString" ].

(** [MODEL_MAP[k]] *)
Definition MODEL_MAP_read (k : string) : option value :=
  match own_entry k MODEL_MAP with
  | Some v => Some (JStr v)
  | None =>
      if existsb (String.eqb k) Object_prototype_keys
      then Some (JBuiltin k) else None
  end.

(** [Object.keys(MODEL_MAP).find((key) => key.toLowerCase() === lower)] *)
Definition find_key (lower : string) : option string :=
  List.find (fun key => String.eqb (toLowerCase key) lower)
            (List.map fst MODEL_MAP).

(** The ordered substring fallback of [normalizeModel]. *)
Definition pattern_fallback (lower modelId : string) : string :=
  if includes "gpt-5.3-codex" lower || includes "gpt 5.3 codex" lower
  then "gpt-5.3-codex"
  else if includes "gpt-5.3" lower || includes "gpt 5.3" lower then "gpt-5.3"
  else if includes "gpt-5.2-codex" lower || includes "gpt 5.2 codex" lower
  then "gpt-5.2-codex"
  else if includes "gpt-5.2" lower || includes "gpt 5.2" lower then "gpt-5.2"
  else if includes "gpt-5.1-codex-max" lower
          || includes "gpt 5.1 codex max" lower
  then "gpt-5.1-codex-max"
  else if includes "gpt-5.1-codex-mini" lower
          || includes "gpt 5.1 codex mini" lower
  then "gpt-5.1-codex-mini"
  else if includes "codex-mini-latest" lower
          || includes "gpt-5-codex-mini" lower
          || includes "gpt 5 codex mini" lower
  then "gpt-5.1-codex-mini"
  else if includes "gpt-5.1-codex" lower || includes "gpt 5.1 codex" lower
  then "gpt-5.1-codex"
  else if includes "gpt-5.1" lower || includes "gpt 5.1" lower then "gpt-5.1"
  else modelId.

(** [normalizeModel] from its prefix-stripped identifier on. *)
Definition normalizeModelId (modelId : string) : value :=
  match MODEL_MAP_read modelId with
  | Some v => v
  | None =>
      let lower := toLowerCase modelId in
      match find_key lower with
      | Some key =>
          match MODEL_MAP_read key with
          | Some v => v
          | None => JStr (pattern_fallback lower modelId)
          end
      | None => JStr (pattern_fallback lower modelId)
      end
  end.

(** [normalizeModel(model)], [None] being [undefined]. *)
Definition normalizeModel (model : option string) : value :=
  match model with
  | None => JStr "gpt-5.1"
  | Some m =>
      if String.eqb m "" then JStr "gpt-5.1"
      else
        let modelId := if includes "/" m then pop (split_on "/" m) else m in
        normalizeModelId modelId
  end.

(* ------------------------------------------------------------------ *)
(** ** HTTP responses as the sources read them *)

(** A [fetch] response: the status and the body stream.  [body = None] is a
    [null] body; otherwise the chunks arrive in order and the stream then
    ends ([ends_ok = true]) or fails with a read error. *)
Record Response : Type := {
  status : Z;
  body : option (list string * bool)
}.

(** [response.ok] *)
Definition ok (r : Response) : bool := (200 <=? status r) && (status r <=? 299).

(** [await response.text()] *)
Definition text {P : Platform} (r : Response) : outcome string :=
  match body r with
  | None => Ok ""
  | Some (chunks, true) => Ok (decode_text (String.concat "" chunks))
  | Some (_, false) => Throw "read error"
  end.

(** [await response.text().catch(() => "")] *)
Definition text_or_empty {P : Platform} (r : Response) : string :=
  match text r with
  | Ok s => s
  | Throw _ => ""
  end.

(** [await response.json()] *)
Definition json {P : Platform} (r : Response) : outcome value :=
  let* s := text r in
  match JSON_parse s with
  | Some v => Ok v
  | None => Throw "SyntaxError"
  end.

(* ------------------------------------------------------------------ *)
(** ** tokenManager.ts *)

Definition JWT_CLAIM_PATH : string := "https://api.openai.com/auth".

Record TokenState : Type := {
  accessToken : value;
  refreshToken : value;
  expires : number;
  accountId : value;
  relayUrl : option string;
  relayKey : option string
}.

Inductive TokenRefreshResult : Type :=
| success (access refresh : value) (expires_at : number)
| failed.

(** [decodeJWT(token)]: [None] is the [null] result.  A token that is not a
    string has no [split], and the [TypeError] is caught. *)
Definition decodeJWT {P : Platform} (token : value) : option value :=
  match token with
  | JStr t =>
      let parts := split_on "." t in
      if negb (Nat.eqb (List.length parts) 3) then None
      else JSON_parse (base64_utf8 (List.nth 1 parts ""))
  | _ => None
  end.

Definition getAccountId {P : Platform} (accessToken : value) : outcome value :=
  let payload := decodeJWT accessToken in
  let accountId :=
    prop_opt (prop_opt payload JWT_CLAIM_PATH) "chatgpt_account_id" in
  match accountId with
  | Some id =>
      if truthy id then Ok id
      else Throw "Failed to extract chatgpt_account_id from access token"
  | None => Throw "Failed to extract chatgpt_account_id from access token"
  end.

(** [n * 1000] *)
Definition times_1000 (n : number) : number :=
  match n with
  | Num z => Num (z * 1000)
  | NaN => NaN
  end.

(** [v * 1000] for a truthy [v] *)
Definition value_times_1000 {P : Platform} (v : value) : number :=
  match v with
  | JNum z => Num (z * 1000)
  | _ => times_1000 (ToNumber v)
  end.

Definition loadTokens {P : Platform} (accessToken refreshToken : string)
  : outcome TokenState :=
  let payload := decodeJWT (JStr accessToken) in
  let expires :=
    match prop_opt payload "exp" with
    | Some e => if truthy e then value_times_1000 e else Num 0
    | None => Num 0
    end in
  let* accountId := getAccountId (JStr accessToken) in
  Ok {| accessToken := JStr accessToken;
        refreshToken := JStr refreshToken;
        expires := expires;
        accountId := accountId;
        relayUrl := None;
        relayKey := None |}.

(** [shouldRefreshToken(state)], with [now] the value of [Date.now()]. *)
Definition shouldRefreshToken (now : Z) (state : TokenState) : bool :=
  match expires state with
  | Num e => e - 60000 <? now
  | NaN => false
  end.

(** [refreshAccessToken]: [reply] is what [fetch(TOKEN_URL, ...)] gives (a
    [Throw] when the request fails), [now] is [Date.now()] afterwards. *)
Definition refreshAccessToken {P : Platform} (now : Z) (reply : outcome Response)
  : TokenRefreshResult :=
  match reply with
  | Throw _ => failed
  | Ok response =>
      if negb (ok response) then failed
      else
        match json response with
        | Throw _ => failed
        | Ok j =>
            let at_ := prop_opt (Some j) "access_token" in
            let rt := prop_opt (Some j) "refresh_token" in
            match at_, rt, prop_opt (Some j) "expires_in" with
            | Some a, Some r, Some (JNum n) =>
                if negb (truthy a) || negb (truthy r) then failed
                else success a r (Num (now + n * 1000))
            | _, _, _ => failed
            end
        end
  end.

(** Field assignments [state.f = v]. *)
Definition set_accessToken (v : value) (s : TokenState) : TokenState :=
  {| accessToken := v; refreshToken := refreshToken s; expires := expires s;
     accountId := accountId s; relayUrl := relayUrl s; relayKey := relayKey s |}.

Definition set_refreshToken (v : value) (s : TokenState) : TokenState :=
  {| accessToken := accessToken s; refreshToken := v; expires := expires s;
     accountId := accountId s; relayUrl := relayUrl s; relayKey := relayKey s |}.

Definition set_expires (n : number) (s : TokenState) : TokenState :=
  {| accessToken := accessToken s; refreshToken := refreshToken s; expires := n;
     accountId := accountId s; relayUrl := relayUrl s; relayKey := relayKey s |}.

Definition set_accountId (v : value) (s : TokenState) : TokenState :=
  {| accessToken := accessToken s; refreshToken := refreshToken s;
     expires := expires s; accountId := v; relayUrl := relayUrl s;
     relayKey := relayKey s |}.

(** A function that mutates the token state in place: the outcome, and the
    state object as the call leaves it. *)
Definition mutation : Type := (outcome unit * TokenState)%type.

(** [fetchFromRelay(state)]: [reply] is what [fetch(state.relayUrl, ...)]
    gives. *)
Definition fetchFromRelay {P : Platform} (reply : outcome Response)
  (state : TokenState) : mutation :=
  match reply with
  | Throw e => (Throw e, state)
  | Ok res =>
      if negb (ok res) then (Throw "Failed to fetch token from relay", state)
      else
        match json res with
        | Throw e => (Throw e, state)
        | Ok j =>
            match prop j "access_token", prop j "expires_at" with
            | Throw e, _ | _, Throw e => (Throw e, state)
            | Ok (Some a), Ok (Some (JNum n)) =>
                if negb (truthy a)
                then (Throw "Relay response missing access_token or expires_at",
                      state)
                else
                  let state := set_accessToken a state in
                  let state := set_expires (Num n) state in
                  match getAccountId a with
                  | Throw e => (Throw e, state)
                  | Ok id => (Ok tt, set_accountId id state)
                  end
            | _, _ =>
                (Throw "Relay response missing access_token or expires_at",
                 state)
            end
        end
  end.

(** What the network and the clock give during one [ensureValidToken]. *)
Record TokenWorld : Type := {
  now : Z;                      (* Date.now() in shouldRefreshToken *)
  relay_reply : outcome Response;
  auth_reply : outcome Response;
  now_refreshed : Z             (* Date.now() in refreshAccessToken *)
}.

(** [if (state.relayUrl)] *)
Definition relay_mode (state : TokenState) : bool :=
  match relayUrl state with
  | Some url => negb (String.eqb url "")
  | None => false
  end.

Definition ensureValidToken {P : Platform} (w : TokenWorld) (state : TokenState)
  : mutation :=
  if negb (shouldRefreshToken (now w) state) then (Ok tt, state)
  else if relay_mode state then fetchFromRelay (relay_reply w) state
  else
    match refreshAccessToken (now_refreshed w) (auth_reply w) with
    | failed => (Throw "Failed to refresh OAuth access token", state)
    | success access refresh expires_at =>
        let state := set_accessToken access state in
        let state := set_refreshToken refresh state in
        let state := set_expires expires_at state in
        match getAccountId access with
        | Throw e => (Throw e, state)
        | Ok id => (Ok tt, set_accountId id state)
        end
    end.

(* ------------------------------------------------------------------ *)
(** ** requestTransformer.ts *)

Definition CODEX_BACKEND_URL : string :=
  "https://chatgpt.com/backend-api/codex/responses".

Definition getBackendUrl : string := CODEX_BACKEND_URL.

(** The callback of [input.filter]: [item.type !== "item_reference"]. *)
Definition keep_item (item : value) : outcome bool :=
  let* ty := prop item "type" in
  Ok (negb (is_str "item_reference" ty)).

(** [input.filter(cb)]: the callback runs on every item, in order. *)
Fixpoint filter_items (input : list value) : outcome (list value) :=
  match input with
  | [] => Ok []
  | item :: rest =>
      let* keep := keep_item item in
      let* rest' := filter_items rest in
      Ok (if keep then item :: rest' else rest')
  end.

(** The callback of [.map]: a truthy [id] is left out of a shallow copy
    ([const { id, ...rest } = item]); any other item is returned as it is. *)
Definition strip_id (item : value) : value :=
  match item with
  | JObj o => if truthy_opt (get "id" o) then JObj (delete "id" o) else item
  | _ => item
  end.

Definition filterInput (input : list value) : outcome (list value) :=
  let* kept := filter_items input in
  Ok (List.map strip_id kept).

(** [if (Array.isArray(body.input)) body.input = filterInput(body.input)] *)
Definition strip_input (body : object) : outcome object :=
  match get "input" body with
  | Some (JArr input) =>
      let* input' := filterInput input in
      Ok (set "input" (JArr input') body)
  | _ => Ok body
  end.

(** [normalizeModel(body.model)] on whatever [body.model] holds.  A falsy
    value takes the default; a string is normalized; an array has an
    [includes] of its own, so it reaches the table read, where it is used as
    a property key; every other value has no [includes]. *)
Definition normalizeModel_of {P : Platform} (model : option value) : outcome value :=
  match model with
  | None => Ok (normalizeModel None)
  | Some (JStr m) => Ok (normalizeModel (Some m))
  | Some (JArr items) =>
      if existsb (fun x => is_str "/" (Some x)) items
      then Throw "TypeError: model.split is not a function"
      else
        match MODEL_MAP_read (ToString (JArr items)) with
        | Some v => Ok v
        | None => Throw "TypeError: modelId.toLowerCase is not a function"
        end
  | Some v =>
      if truthy v then Throw "TypeError: model.includes is not a function"
      else Ok (normalizeModel None)
  end.

(** The [reasoning] defaults.  A property cannot be created on a primitive
    (module code is strict); one created on an array is not part of its
    JSON value. *)
Definition ensure_reasoning (body : object) : outcome object :=
  match get "reasoning" body with
  | Some (JObj r) =>
      let r := if negb (truthy_opt (get "effort" r))
               then set "effort" (JStr "medium") r else r in
      let r := if negb (truthy_opt (get "summary" r))
               then set "summary" (JStr "auto") r else r in
      Ok (set "reasoning" (JObj r) body)
  | Some (JArr _) | Some (JBuiltin _) => Ok body
  | Some v =>
      if truthy v then Throw "TypeError: cannot create property on a primitive"
      else Ok (set "reasoning"
                 (JObj [("effort", JStr "medium"); ("summary", JStr "auto")])
                 body)
  | None =>
      Ok (set "reasoning"
            (JObj [("effort", JStr "medium"); ("summary", JStr "auto")]) body)
  end.

Definition ENCRYPTED : string := "reasoning.encrypted_content".

(** [[...s]] for a string: its characters. *)
Fixpoint chars (s : string) : list value :=
  match s with
  | EmptyString => []
  | String c t => JStr (String c EmptyString) :: chars t
  end.

(** The [include] entry for encrypted reasoning content. *)
Definition ensure_include (body : object) : outcome object :=
  match get "include" body with
  | None | Some JNull => Ok (set "include" (JArr [JStr ENCRYPTED]) body)
  | Some (JArr items) =>
      if existsb (fun x => is_str ENCRYPTED (Some x)) items then Ok body
      else Ok (set "include" (JArr (items ++ [JStr ENCRYPTED])) body)
  | Some (JStr s) =>
      if negb (String.eqb s "") && includes ENCRYPTED s then Ok body
      else Ok (set "include" (JArr (chars s ++ [JStr ENCRYPTED])) body)
  | Some v =>
      if truthy v
      then Throw "TypeError: body.include.includes is not a function"
      else Throw "TypeError: body.include is not iterable"
  end.

Definition transformRequestBody {P : Platform} (body : object)
  : outcome (object * bool) :=
  let wasStreaming :=
    match get "stream" body with
    | Some (JBool true) => true
    | _ => false
    end in
  let* model := normalizeModel_of (get "model" body) in
  let body := set "model" model body in
  let body := set "store" (JBool false) body in
  let body := set "stream" (JBool true) body in
  let* body := strip_input body in
  let* body := ensure_reasoning body in
  let* body := ensure_include body in
  let body := delete "max_output_tokens" body in
  let body := delete "max_completion_tokens" body in
  Ok (body, wasStreaming).

(* ------------------------------------------------------------------ *)
(** ** responseHandler.ts *)

(** What the handler has sent on the downstream [ServerResponse] once it has
    ended it: the status and headers of [writeHead], and the bytes of the
    [write] and [end] calls in order. *)
Record Downstream : Type := {
  code : Z;
  headers : list (string * string);
  sent : string
}.

Definition JSON_HEADERS : list (string * string) :=
  [("Content-Type", "application/json")].

(** [JSON.stringify(v)] passed to [end]: [end(undefined)] sends nothing. *)
Definition stringify {P : Platform} (v : value) : string :=
  match JSON_stringify v with
  | Some s => s
  | None => ""
  end.

(** [JSON.stringify({ error: msg })] *)
Definition error_body {P : Platform} (msg : string) : string :=
  stringify (JObj [("error", JStr msg)]).

Definition isUsageLimitBody (body : string) : bool :=
  let haystack := toLowerCase body in
  includes "usage_limit_reached" haystack
  || includes "usage_not_included" haystack
  || includes "rate_limit_exceeded" haystack
  || includes "usage limit" haystack.

Definition pipeStream (upstream : Response) : Downstream :=
  {| code := 200;
     headers := [ ("Content-Type", "text/event-stream; charset=utf-8");
                  ("Cache-Control", "no-cache");
                  ("Connection", "keep-alive") ];
     sent := match body upstream with
             | None => ""
             | Some (chunks, _) => String.concat "" chunks
             end |}.

(** One turn of the loop of [parseSseStream]: [Some r] when the line makes
    the function return [r] ([r = None] being [undefined]), [None] when the
    loop goes on. *)
Definition terminal_event {P : Platform} (line : string)
  : option (option value) :=
  if negb (startsWith "data: " line) then None
  else
    match JSON_parse (substring_from 6 line) with
    | None => None
    | Some data =>
        match prop data "type" with
        | Throw _ => None
        | Ok ty =>
            if is_str "response.done" ty || is_str "response.completed" ty
            then Some (prop_opt (Some data) "response")
            else None
        end
    end.

Fixpoint scan_lines {P : Platform} (lines : list string) : option value :=
  match lines with
  | [] => Some JNull
  | line :: rest =>
      match terminal_event line with
      | Some r => r
      | None => scan_lines rest
      end
  end.

(** [parseSseStream(sseText)]: [None] is [undefined], [Some JNull] is
    [null]. *)
Definition parseSseStream {P : Platform} (sseText : string) : option value :=
  scan_lines (split_on "010" sseText).

Definition convertSseToJson {P : Platform} (upstream : Response) : Downstream :=
  match body upstream with
  | None =>
      {| code := 502; headers := JSON_HEADERS;
         sent := error_body "No response body from upstream" |}
  | Some (_, false) =>
      {| code := 502; headers := JSON_HEADERS;
         sent := error_body "Failed to read upstream response" |}
  | Some (chunks, true) =>
      let fullText := decode_stream chunks in
      match parseSseStream fullText with
      | None | Some JNull =>
          {| code := 200;
             headers := [("Content-Type", "text/event-stream; charset=utf-8")];
             sent := fullText |}
      | Some finalResponse =>
          {| code := 200;
             headers := [("Content-Type", "application/json; charset=utf-8")];
             sent := stringify finalResponse |}
      end
  end.

Definition handleUpstreamResponse {P : Platform} (upstream : Response)
  (wasStreaming : bool) : Downstream :=
  if status upstream =? 404 then
    let body := text_or_empty upstream in
    let status := if isUsageLimitBody body then 429 else 404 in
    {| code := status; headers := JSON_HEADERS; sent := body |}
  else if negb (ok upstream) then
    {| code := status upstream; headers := JSON_HEADERS;
       sent := text_or_empty upstream |}
  else if wasStreaming then pipeStream upstream
  else convertSseToJson upstream.

(* ------------------------------------------------------------------ *)
(** ** oauthProxy.ts *)

(** An inbound request: [req.method], [req.url], and what [readBody(req)]
    resolves to. *)
Record Request : Type := {
  method : option string;
  url : option string;
  readBody : outcome string
}.

(** What the network and the clock give while one request is handled. *)
Record World : Type := {
  token_world : TokenWorld;
  backend_reply : outcome Response
}.

(** The steps of [handleRequest], in the order it takes them. *)
Inductive event : Type :=
| ReadBody
| EnsureValidToken
| TransformRequestBody
| FetchBackend
| Respond (d : Downstream).

(** A run of [handleRequest]: its steps, the error if its promise rejects,
    and the shared token state as the run leaves it. *)
Record Run : Type := {
  events : list event;
  rejected : option string;
  final_state : TokenState
}.

(** [transformRequestBody] on what [JSON.parse(rawBody)] returned.  A
    property cannot be read on [null] nor created on a primitive; those
    created on an array are not part of its JSON value. *)
Definition transform_parsed {P : Platform} (parsed : value)
  : outcome (value * bool) :=
  match parsed with
  | JObj o =>
      let* (transformed, wasStreaming) := transformRequestBody o in
      Ok (JObj transformed, wasStreaming)
  | JArr items => Ok (JArr items, false)
  | JBuiltin name => Ok (JBuiltin name, false)
  | JNull => Throw "TypeError: cannot read properties of null"
  | _ => Throw "TypeError: cannot create property on a primitive"
  end.

Definition handleRequest {P : Platform} (w : World) (req : Request)
  (tokenState : TokenState) : Run :=
  if negb (is_str "POST" (option_map JStr (method req)))
     || negb (match url req with
              | Some u => startsWith "/v1/responses" u
              | None => false
              end)
  then
    {| events := [Respond {| code := 404; headers := JSON_HEADERS;
                             sent := error_body "Not found" |}];
       rejected := None; final_state := tokenState |}
  else
    match readBody req with
    | Throw e =>
        {| events := [ReadBody]; rejected := Some e;
           final_state := tokenState |}
    | Ok rawBody =>
        match JSON_parse rawBody with
        | None =>
            {| events := [ReadBody;
                          Respond {| code := 400; headers := JSON_HEADERS;
                                     sent := error_body "Invalid JSON body" |}];
               rejected := None; final_state := tokenState |}
        | Some body =>
            match ensureValidToken (token_world w) tokenState with
            | (Throw _, tokenState) =>
                {| events :=
                     [ReadBody; EnsureValidToken;
                      Respond
                        {| code := 401; headers := JSON_HEADERS;
                           sent := error_body
                             "OAuth token refresh failed. Re-authenticate." |}];
                   rejected := None; final_state := tokenState |}
            | (Ok _, tokenState) =>
                match transform_parsed body with
                | Throw e =>
                    {| events := [ReadBody; EnsureValidToken;
                                  TransformRequestBody];
                       rejected := Some e; final_state := tokenState |}
                | Ok (transformed, wasStreaming) =>
                    match backend_reply w with
                    | Throw _ =>
                        {| events :=
                             [ReadBody; EnsureValidToken; TransformRequestBody;
                              FetchBackend;
                              Respond
                                {| code := 502; headers := JSON_HEADERS;
                                   sent := error_body
                                     "Failed to reach ChatGPT backend" |}];
                           rejected := None; final_state := tokenState |}
                    | Ok upstream =>
                        {| events :=
                             [ReadBody; EnsureValidToken; TransformRequestBody;
                              FetchBackend;
                              Respond
                                (handleUpstreamResponse upstream wasStreaming)];
                           rejected := None; final_state := tokenState |}
                    end
                end
            end
        end
    end.

(* ------------------------------------------------------------------ *)
(** ** A reference platform

    Executable built-ins for the closed examples: a reader and a printer of
    JSON text whose numbers are integer literals and whose strings are
    ASCII, and a base64 decoder. *)

Module Reference.

Definition is_ws (c : ascii) : bool :=
  let n := nat_of_ascii c in
  (Nat.eqb n 32 || Nat.eqb n 9 || Nat.eqb n 10 || Nat.eqb n 13)%bool.

Fixpoint skip_ws (s : string) : string :=
  match s with
  | String c t => if is_ws c then skip_ws t else s
  | EmptyString => s
  end.

Definition is_digit (c : ascii) : bool :=
  let n := nat_of_ascii c in (Nat.leb 48 n && Nat.leb n 57)%bool.

Definition digit_val (c : ascii) : Z := Z.of_nat (nat_of_ascii c) - 48.

(** Digits at the head of [s], folded onto [acc]. *)
Fixpoint read_digits (acc : Z) (s : string) : Z * string :=
  match s with
  | String c t =>
      if is_digit c then read_digits (10 * acc + digit_val c) t else (acc, s)
  | EmptyString => (acc, s)
  end.

(** A number may not go on with a fraction or an exponent here. *)
Definition number_ends (s : string) : bool :=
  match s with
  | String c _ =>
      negb (Ascii.eqb c "." || Ascii.eqb c "e" || Ascii.eqb c "E")
  | EmptyString => true
  end.

(** [0] or a digit string that does not start with [0]. *)
Definition read_nat (s : string) : option (Z * string) :=
  match s with
  | String c t =>
      if Ascii.eqb c "0" then
        if number_ends t then Some (0, t) else None
      else if is_digit c then
        let (n, rest) := read_digits 0 s in
        if number_ends rest then Some (n, rest) else None
      else None
  | EmptyString => None
  end.

Definition hex_val (c : ascii) : option nat :=
  let n := nat_of_ascii c in
  if (Nat.leb 48 n && Nat.leb n 57)%bool then Some (n - 48)%nat
  else if (Nat.leb 97 n && Nat.leb n 102)%bool then Some (n - 87)%nat
  else if (Nat.leb 65 n && Nat.leb n 70)%bool then Some (n - 55)%nat
  else None.

(** The characters of a string literal after its opening quote. *)
Fixpoint read_string (fuel : nat) (s : string) : option (string * string) :=
  match fuel with
  | O => None
  | S fuel =>
      match s with
      | EmptyString => None
      | String c t =>
          if Ascii.eqb c "034" then Some (EmptyString, t)
          else if Ascii.eqb c "\" then
            match t with
            | String e t' =>
                let simple (x : ascii) :=
                  match read_string fuel t' with
                  | Some (r, rest) => Some (String x r, rest)
                  | None => None
                  end in
                if Ascii.eqb e "034" then simple "034"%char
                else if Ascii.eqb e "\" then simple "\"%char
                else if Ascii.eqb e "/" then simple "/"%char
                else if Ascii.eqb e "b" then simple "008"%char
                else if Ascii.eqb e "f" then simple "012"%char
                else if Ascii.eqb e "n" then simple "010"%char
                else if Ascii.eqb e "r" then simple "013"%char
                else if Ascii.eqb e "t" then simple "009"%char
                else if Ascii.eqb e "u" then
                  match t' with
                  | String h1 (String h2 (String h3 (String h4 t''))) =>
                      match hex_val h1, hex_val h2, hex_val h3, hex_val h4 with
                      | Some 0%nat, Some 0%nat, Some a, Some b =>
                          if Nat.ltb (16 * a + b) 128 then
                            match read_string fuel t'' with
                            | Some (r, rest) =>
                                Some (String (ascii_of_nat (16 * a + b)) r, rest)
                            | None => None
                            end
                          else None
                      | _, _, _, _ => None
                      end
                  | _ => None
                  end
                else None
            | EmptyString => None
            end
          else if Nat.ltb (nat_of_ascii c) 32 then None
          else
            match read_string fuel t with
            | Some (r, rest) => Some (String c r, rest)
            | None => None
            end
      end
  end.

(** [read_value] reads one value at the head of [s]; [read_elements] the
    rest of an array after an element, [read_members] the rest of an object
    after a member.  A repeated key keeps its first place and its last
    value. *)
Fixpoint read_value (fuel : nat) (s : string) : option (value * string) :=
  match fuel with
  | O => None
  | S fuel =>
      if String.prefix "null" s then Some (JNull, substring_from 4 s)
      else if String.prefix "true" s then Some (JBool true, substring_from 4 s)
      else if String.prefix "false" s
      then Some (JBool false, substring_from 5 s)
      else
        match s with
        | EmptyString => None
        | String c t =>
            if Ascii.eqb c "034" then
              match read_string (S (String.length t)) t with
              | Some (str, rest) => Some (JStr str, rest)
              | None => None
              end
            else if Ascii.eqb c "-" then
              match read_nat t with
              | Some (n, rest) => Some (JNum (- n), rest)
              | None => None
              end
            else if is_digit c then
              match read_nat s with
              | Some (n, rest) => Some (JNum n, rest)
              | None => None
              end
            else if Ascii.eqb c "[" then
              match skip_ws t with
              | String "]" rest => Some (JArr [], rest)
              | t' =>
                  match read_value fuel t' with
                  | Some (v, rest) => read_elements fuel [v] (skip_ws rest)
                  | None => None
                  end
              end
            else if Ascii.eqb c "{" then
              match skip_ws t with
              | String "}" rest => Some (JObj [], rest)
              | t' => read_member fuel [] t'
              end
            else None
        end
  end
with read_elements (fuel : nat) (acc : list value) (s : string)
  : option (value * string) :=
  match fuel with
  | O => None
  | S fuel =>
      match s with
      | String "]" rest => Some (JArr acc, rest)
      | String "," rest =>
          match read_value fuel (skip_ws rest) with
          | Some (v, rest') => read_elements fuel (acc ++ [v]) (skip_ws rest')
          | None => None
          end
      | _ => None
      end
  end
with read_member (fuel : nat) (acc : object) (s : string)
  : option (value * string) :=
  match fuel with
  | O => None
  | S fuel =>
      match s with
      | String "034" t =>
          match read_string (S (String.length t)) t with
          | Some (key, rest) =>
              match skip_ws rest with
              | String ":" rest' =>
                  match read_value fuel (skip_ws rest') with
                  | Some (v, rest'') =>
                      let acc := set key v acc in
                      match skip_ws rest'' with
                      | String "}" rest3 => Some (JObj acc, rest3)
                      | String "," rest3 => read_member fuel acc (skip_ws rest3)
                      | _ => None
                      end
                  | None => None
                  end
              | _ => None
              end
          | None => None
          end
      | _ => None
      end
  end.

Definition parse (s : string) : option value :=
  match read_value (S (String.length s)) (skip_ws s) with
  | Some (v, rest) =>
      match skip_ws rest with
      | EmptyString => Some v
      | _ => None
      end
  | None => None
  end.

(** Decimal text of an integer. *)
Definition print_Z (z : Z) : string := NilZero.string_of_int (Z.to_int z).

Definition hex_digit (n : nat) : ascii :=
  if Nat.ltb n 10 then ascii_of_nat (48 + n) else ascii_of_nat (87 + n).

(** A character inside a string literal, as [JSON.stringify] writes it. *)
Definition escape_char (c : ascii) : string :=
  let n := nat_of_ascii c in
  if Ascii.eqb c "034" then String "\" (String "034" "")
  else if Ascii.eqb c "\" then "\\"
  else if Nat.eqb n 8 then "\b"
  else if Nat.eqb n 12 then "\f"
  else if Nat.eqb n 10 then "\n"
  else if Nat.eqb n 13 then "\r"
  else if Nat.eqb n 9 then "\t"
  else if Nat.ltb n 32
  then "\u00" ++ String (hex_digit (n / 16)) (String (hex_digit (n mod 16)) "")
  else String c "".

Fixpoint escape (s : string) : string :=
  match s with
  | EmptyString => EmptyString
  | String c t => escape_char c ++ escape t
  end.

Definition quote (s : string) : string :=
  String "034" (escape s ++ String "034" "").

(** [JSON.stringify]: a function has no JSON text, is [null] as an array
    element and is left out as a property. *)
Fixpoint print (v : value) : option string :=
  match v with
  | JNull => Some "null"
  | JBool true => Some "true"
  | JBool false => Some "false"
  | JNum z => Some (print_Z z)
  | JStr s => Some (quote s)
  | JArr items =>
      Some ("[" ++ String.concat ","
                     (List.map (fun x => match print x with
                                         | Some t => t
                                         | None => "null"
                                         end) items) ++ "]")
  | JObj fields =>
      Some ("{" ++ String.concat ","
                     (List.flat_map
                        (fun kv => match print (snd kv) with
                                   | Some t => [quote (fst kv) ++ ":" ++ t]
                                   | None => []
                                   end) fields) ++ "}")
  | JBuiltin name => if String.eqb name "__proto__" then Some "{}" else None
  end.

(** The six bits of a base64 character, in either alphabet. *)
Definition sextet (c : ascii) : option nat :=
  let n := nat_of_ascii c in
  if (Nat.leb 65 n && Nat.leb n 90)%bool then Some (n - 65)%nat
  else if (Nat.leb 97 n && Nat.leb n 122)%bool then Some (n - 71)%nat
  else if (Nat.leb 48 n && Nat.leb n 57)%bool then Some (n + 4)%nat
  else if (Nat.eqb n 43 || Nat.eqb n 45)%bool then Some 62%nat
  else if (Nat.eqb n 47 || Nat.eqb n 95)%bool then Some 63%nat
  else None.

(** The sextets of the text: other characters are passed over and [=] ends
    the data. *)
Fixpoint sextets (s : string) : list nat :=
  match s with
  | EmptyString => []
  | String c t =>
      if Ascii.eqb c "=" then []
      else match sextet c with
           | Some n => n :: sextets t
           | None => sextets t
           end
  end.

Fixpoint bytes_of (l : list nat) : string :=
  match l with
  | a :: b :: c :: d :: rest =>
      String (ascii_of_nat (a * 4 + b / 16))
        (String (ascii_of_nat ((b mod 16) * 16 + c / 4))
           (String (ascii_of_nat ((c mod 4) * 64 + d)) (bytes_of rest)))
  | [a; b; c] =>
      String (ascii_of_nat (a * 4 + b / 16))
        (String (ascii_of_nat ((b mod 16) * 16 + c / 4)) "")
  | [a; b] => String (ascii_of_nat (a * 4 + b / 16)) ""
  | _ => ""
  end.

Definition base64 (s : string) : string := bytes_of (sextets s).

(** [String(v)] *)
Fixpoint to_string (v : value) : string :=
  match v with
  | JNull => "null"
  | JBool true => "true"
  | JBool false => "false"
  | JNum z => print_Z z
  | JStr s => s
  | JArr items =>
      String.concat ","
        (List.map (fun x => match x with
                            | JNull => ""
                            | _ => to_string x
                            end) items)
  | JObj _ => "[object Object]"
  | JBuiltin name => "function " ++ name ++ "() { [native code] }"
  end.

Definition all_digits (s : string) : bool :=
  negb (String.eqb s "") && String.eqb (snd (read_digits 0 s)) "".

(** [Number(s)] for a string of decimal digits, and for the empty string. *)
Definition string_to_number (s : string) : number :=
  if String.eqb s "" then Num 0
  else if all_digits s then Num (fst (read_digits 0 s))
  else NaN.

(** [Number(v)] *)
Definition to_number (v : value) : number :=
  match v with
  | JNull => Num 0
  | JBool b => Num (if b then 1 else 0)
  | JNum z => Num z
  | JStr s => string_to_number s
  | JArr _ => string_to_number (to_string v)
  | JObj _ | JBuiltin _ => NaN
  end.

(** The UTF-8 decoder of the Encoding Standard, with its output written
    back in UTF-8: a well-formed sequence is kept, every maximal ill-formed
    part becomes U+FFFD, and a byte order mark at the start is dropped. *)
Definition REPLACEMENT : string := String "239" (String "191" (String "189" "")).

(** The decoder between two bytes: continuation bytes still needed, the
    range the next one must lie in, and the bytes of the sequence so far. *)
Record decoder : Type := {
  needed : nat;
  lower : nat;
  upper : nat;
  pending : string
}.

Definition idle : decoder :=
  {| needed := 0; lower := 128; upper := 191; pending := "" |}.

(** A byte met outside a sequence. *)
Definition lead (b : ascii) : string * decoder :=
  let n := nat_of_ascii b in
  if Nat.leb n 127 then (String b "", idle)
  else if (Nat.leb 194 n && Nat.leb n 223)%bool then
    ("", {| needed := 1; lower := 128; upper := 191; pending := String b "" |})
  else if (Nat.leb 224 n && Nat.leb n 239)%bool then
    ("", {| needed := 2;
            lower := if Nat.eqb n 224 then 160 else 128;
            upper := if Nat.eqb n 237 then 159 else 191;
            pending := String b "" |})
  else if (Nat.leb 240 n && Nat.leb n 244)%bool then
    ("", {| needed := 3;
            lower := if Nat.eqb n 240 then 144 else 128;
            upper := if Nat.eqb n 244 then 143 else 191;
            pending := String b "" |})
  else (REPLACEMENT, idle).

(** One byte: what is written, and the decoder afterwards.  A byte that
    cannot go on the sequence ends it with U+FFFD and is read again as a
    lead. *)
Definition feed (d : decoder) (b : ascii) : string * decoder :=
  match needed d with
  | O => lead b
  | S rest =>
      let n := nat_of_ascii b in
      if (Nat.leb (lower d) n && Nat.leb n (upper d))%bool then
        match rest with
        | O => (pending d ++ String b "", idle)
        | S _ =>
            ("", {| needed := rest; lower := 128; upper := 191;
                    pending := pending d ++ String b "" |})
        end
      else
        let (out, d') := lead b in (REPLACEMENT ++ out, d')
  end.

Fixpoint feed_all (d : decoder) (s : string) : string * decoder :=
  match s with
  | EmptyString => (EmptyString, d)
  | String b t =>
      let (out, d') := feed d b in
      let (out', d'') := feed_all d' t in
      (out ++ out', d'')
  end.

(** The end of the input inside a sequence. *)
Definition flush (d : decoder) : string :=
  match needed d with
  | O => ""
  | S _ => REPLACEMENT
  end.

Definition strip_bom (s : string) : string :=
  match s with
  | String "239" (String "187" (String "191" rest)) => rest
  | _ => s
  end.

(** [response.text()]: the whole body, flushed at its end. *)
Definition utf8_text (bytes : string) : string :=
  let (out, d) := feed_all idle bytes in strip_bom (out ++ flush d).

(** A [TextDecoder] fed chunk by chunk with [stream: true] and never
    flushed: a sequence cut by the end of the body is not written. *)
Definition utf8_stream (chunks : list string) : string :=
  strip_bom (fst (feed_all idle (String.concat "" chunks))).

End Reference.

Definition reference : Platform := {|
  JSON_parse := Reference.parse;
  JSON_stringify := Reference.print;
  base64_utf8 := Reference.base64;
  decode_text := Reference.utf8_text;
  decode_stream := Reference.utf8_stream;
  ToString := Reference.to_string;
  ToNumber := Reference.to_number
|}.

(* ------------------------------------------------------------------ *)
(** ** Vocabulary of the statements *)

(** [m] occurs in [s]. *)
Definition occurs_in (m s : string) : Prop :=
  exists pre post, s = pre ++ m ++ post.

(** The alternatives of the pattern of [isUsageLimitBody]. *)
Definition USAGE_LIMIT_MARKERS : list string :=
  [ "usage_limit_reached"; "usage_not_included"; "rate_limit_exceeded";
    "usage limit" ].

(** The lowercased body contains a usage-limit marker. *)
Definition has_marker (body : string) : Prop :=
  exists m, In m USAGE_LIMIT_MARKERS /\ occurs_in m (toLowerCase body).

(** The line is a [data: ] line whose remainder parses to an event [ev] with
    a terminal [type]. *)
Definition terminal_line {P : Platform} (line : string) (ev : object) : Prop :=
  exists rest,
    line = "data: " ++ rest
    /\ JSON_parse rest = Some (JObj ev)
    /\ (get "type" ev = Some (JStr "response.done")
        \/ get "type" ev = Some (JStr "response.completed")).

Definition not_terminal {P : Platform} (line : string) : Prop :=
  forall ev, ~ terminal_line line ev.

(** The degraded fallback of buffering mode. *)
Definition raw_fallback (fullText : string) : Downstream :=
  {| code := 200;
     headers := [("Content-Type", "text/event-stream; charset=utf-8")];
     sent := fullText |}.

(** The one answer of the route gate. *)
Definition not_found {P : Platform} : Downstream :=
  {| code := 404; headers := JSON_HEADERS; sent := error_body "Not found" |}.

(** A world in which nothing answers, and a token state, for the closed
    examples that need none. *)
Definition silent_world : World :=
  {| token_world := {| now := 0; relay_reply := Throw "offline";
                       auth_reply := Throw "offline"; now_refreshed := 0 |};
     backend_reply := Throw "offline" |}.

Definition some_state : TokenState :=
  {| accessToken := JStr "a.b.c"; refreshToken := JStr "r";
     expires := Num 1000000; accountId := JStr "acct";
     relayUrl := None; relayKey := None |}.

(** The fields [transformRequestBody] may write or delete. *)
Definition RECOGNIZED : list string :=
  [ "model"; "store"; "stream"; "input"; "reasoning"; "include";
    "max_output_tokens"; "max_completion_tokens" ].

(** The item is tagged as a reference. *)
Definition is_reference (item : value) : bool :=
  match item with
  | JObj o => is_str "item_reference" (get "type" o)
  | _ => false
  end.

(** The items that are not references, in their order. *)
Definition survivors (items : list value) : list value :=
  List.filter (fun item => negb (is_reference item)) items.

(** Field [k] of an item. *)
Definition field (k : string) (item : value) : option value :=
  prop_opt (Some item) k.

Definition is_object (v : value) : bool :=
  match v with JObj _ => true | _ => false end.

(** A body that follows the [RequestBody] interface in the fields the
    transformation reads. *)
Definition well_typed (body : object) : bool :=
  match get "model" body with
  | None | Some (JStr _) => true
  | _ => false
  end
  && match get "input" body with
     | None => true
     | Some (JArr items) => forallb is_object items
     | _ => false
     end
  && match get "reasoning" body with
     | None | Some (JObj _) => true
     | _ => false
     end
  && match get "include" body with
     | None | Some (JArr _) => true
     | _ => false
     end.

(** The account-id binding: the stored account identifier is the one the
    stored access token yields. *)
Definition coherent {P : Platform} (state : TokenState) : Prop :=
  getAccountId (accessToken state) = Ok (accountId state).

(** Texts for the closed examples: [q s] is [s] in double quotes, [nl] a
    line feed. *)
Definition q (s : string) : string := Reference.quote s.

Definition nl : string := String "010" "".

(** [data: {"type":"response.output_text"}] *)
Definition line_delta : string :=
  "data: {" ++ q "type" ++ ":" ++ q "response.output_text" ++ "}".

(** [data: {"type":"response.done","response":{"id":"r1"}}] *)
Definition line_done_r1 : string :=
  "data: {" ++ q "type" ++ ":" ++ q "response.done" ++ ","
  ++ q "response" ++ ":{" ++ q "id" ++ ":" ++ q "r1" ++ "}}".

(** [data: {"type":"response.completed","response":{"id":"r2"}}] *)
Definition line_completed_r2 : string :=
  "data: {" ++ q "type" ++ ":" ++ q "response.completed" ++ ","
  ++ q "response" ++ ":{" ++ q "id" ++ ":" ++ q "r2" ++ "}}".

(** [data: {"type":"response.done"}] *)
Definition line_done_bare : string :=
  "data: {" ++ q "type" ++ ":" ++ q "response.done" ++ "}".

(** [data: {"type":"response.done","response":null}] *)
Definition line_done_null : string :=
  "data: {" ++ q "type" ++ ":" ++ q "response.done" ++ ","
  ++ q "response" ++ ":null}".

(** The byte order mark, EF BB BF. *)
Definition bom : string := String "239" (String "187" (String "191" "")).

(** A 2xx upstream whose body arrives in the given chunks and ends. *)
Definition upstream_200 (chunks : list string) : Response :=
  {| status := 200; body := Some (chunks, true) |}.

(** A token whose payload is
    [{"https://api.openai.com/auth":{"chatgpt_account_id":"acct_1"},"exp":1700000000}]. *)
Definition jwt_acct_1 : string :=
  "h.eyJodHRwczovL2FwaS5vcGVuYWkuY29tL2F1dGgiOnsiY2hhdGdwdF9hY2NvdW50X2lkIjoiYWNjdF8xIn0sImV4cCI6MTcwMDAwMDAwMH0.s".

(** A token whose payload is
    [{"https://api.openai.com/auth":{"chatgpt_account_id":"acct_2"},"exp":1800000000}]. *)
Definition jwt_acct_2 : string :=
  "h.eyJodHRwczovL2FwaS5vcGVuYWkuY29tL2F1dGgiOnsiY2hhdGdwdF9hY2NvdW50X2lkIjoiYWNjdF8yIn0sImV4cCI6MTgwMDAwMDAwMH0.s".

(** A token whose payload, [{"exp":1800000000}], names no account. *)
Definition jwt_no_account : string := "h.eyJleHAiOjE4MDAwMDAwMDB9.s".

(** The state [loadTokens(jwt_acct_1, "refresh-1")] builds. *)
Definition loaded_state : TokenState :=
  {| accessToken := JStr jwt_acct_1; refreshToken := JStr "refresh-1";
     expires := Num 1700000000000; accountId := JStr "acct_1";
     relayUrl := None; relayKey := None |}.

(** The same state in relay mode, as [createOAuthProxy] sets it up. *)
Definition relay_state : TokenState :=
  {| accessToken := JStr jwt_acct_1; refreshToken := JStr "";
     expires := Num 1700000000000; accountId := JStr "acct_1";
     relayUrl := Some "https://relay.example/token"; relayKey := Some "key" |}.

(** A 200 reply with the given body text. *)
Definition reply_200 (text : string) : outcome Response :=
  Ok {| status := 200; body := Some ([text], true) |}.

(** [{"access_token":<token>,"expires_at":1800000000000}] *)
Definition relay_json (token : string) : string :=
  "{" ++ q "access_token" ++ ":" ++ q token ++ ","
  ++ q "expires_at" ++ ":1800000000000}".

(** [{"access_token":<token>,"refresh_token":"refresh-2","expires_in":3600}] *)
Definition auth_json (token : string) : string :=
  "{" ++ q "access_token" ++ ":" ++ q token ++ ","
  ++ q "refresh_token" ++ ":" ++ q "refresh-2" ++ ","
  ++ q "expires_in" ++ ":3600}".

(** The clock stands at 1 750 000 000 000 ms: the loaded token has expired;
    the relay and the auth server answer with the given token. *)
Definition world_answering (token : string) : TokenWorld :=
  {| now := 1750000000000;
     relay_reply := reply_200 (relay_json token);
     auth_reply := reply_200 (auth_json token);
     now_refreshed := 1750000000500 |}.

(* ------------------------------------------------------------------ *)
(** ** oauthProxy.ts: construction and the server callback *)

(** The options of [createOAuthProxy] that seed the token state. *)
Record OAuthProxyOptions : Type := {
  opt_accessToken : string;
  opt_refreshToken : string;
  opt_relayUrl : option string;
  opt_relayKey : option string
}.

(** The token state [createOAuthProxy] builds before it creates the server:
    [loadTokens], then the relay fields when a relay URL is given; a throw
    is wrapped. *)
Definition createOAuthProxy_state {P : Platform} (options : OAuthProxyOptions)
  : outcome TokenState :=
  match loadTokens (opt_accessToken options) (opt_refreshToken options) with
  | Throw e => Throw ("Failed to initialise OAuth tokens: " ++ e)
  | Ok tokenState =>
      match opt_relayUrl options with
      | Some relayUrl =>
          if negb (String.eqb relayUrl "") then
            Ok {| accessToken := accessToken tokenState;
                  refreshToken := refreshToken tokenState;
                  expires := expires tokenState;
                  accountId := accountId tokenState;
                  relayUrl := Some relayUrl;
                  relayKey := opt_relayKey options |}
          else Ok tokenState
      | None => Ok tokenState
      end
  end.

(** The response a run has sent, if any ([res.headersSent]). *)
Fixpoint response_of (evs : list event) : option Downstream :=
  match evs with
  | [] => None
  | Respond d :: _ => Some d
  | _ :: rest => response_of rest
  end.

(** The callback of [createServer]: [handleRequest], and on a rejection a
    500 when nothing has been sent yet.  The answer the client gets, and
    the token state afterwards. *)
Definition serve {P : Platform} (w : World) (req : Request)
  (tokenState : TokenState) : option Downstream * TokenState :=
  let run := handleRequest w req tokenState in
  match rejected run with
  | None => (response_of (events run), final_state run)
  | Some _ =>
      match response_of (events run) with
      | Some d => (Some d, final_state run)
      | None =>
          (Some {| code := 500; headers := JSON_HEADERS;
                   sent := error_body "Internal proxy error" |},
           final_state run)
      end
  end.

(* ------------------------------------------------------------------ *)
(** ** Further vocabulary *)

(** Occurrences of a character. *)
Fixpoint count_char (c : ascii) (s : string) : nat :=
  match s with
  | EmptyString => O
  | String d t => (if Ascii.eqb d c then 1 else 0) + count_char c t
  end.

(** The canonical names: the right-hand sides of [MODEL_MAP]. *)
Definition CANONICAL : list string := List.map snd MODEL_MAP.

(** The order in which [handleRequest] takes its steps. *)
Definition STEPS : list event :=
  [ReadBody; EnsureValidToken; TransformRequestBody; FetchBackend].

(** Whether an identifier names a model family, in any letter case. *)
Definition mentions_family (k : string) : bool :=
  includes "gpt" (toLowerCase k) || includes "codex-mini-latest" (toLowerCase k).

(** A token whose payload,
    [{"https://api.openai.com/auth":{"chatgpt_account_id":"acct_3"}}], holds
    no [exp]. *)
Definition jwt_no_exp : string :=
  "h.eyJodHRwczovL2FwaS5vcGVuYWkuY29tL2F1dGgiOnsiY2hhdGdwdF9hY2NvdW50X2lkIjoiYWNjdF8zIn19.s".

(** The request is a [POST] whose URL starts with [/v1/responses]. *)
Definition passes_gate (req : Request) : Prop :=
  method req = Some "POST"
  /\ exists rest, url req = Some ("/v1/responses" ++ rest).

(** The answer of the server callback to a rejected handler. *)
Definition internal_error {P : Platform} : Downstream :=
  {| code := 500; headers := JSON_HEADERS;
     sent := error_body "Internal proxy error" |}.

(** A body [transformRequestBody] cannot work on: [null], or an object
    whose [input] array holds a [null]. *)
Definition unusable_body (body : value) : Prop :=
  body = JNull
  \/ exists o items,
       body = JObj o /\ get "input" o = Some (JArr items) /\ In JNull items.

(** A world in which the token has expired and nothing answers. *)
Definition offline_world : World :=
  {| token_world := {| now := 1750000000000; relay_reply := Throw "offline";
                       auth_reply := Throw "offline"; now_refreshed := 0 |};
     backend_reply := Throw "offline" |}.

(** [POST /v1/responses] with the given body text. *)
Definition post (rawBody : string) : Request :=
  {| method := Some "POST"; url := Some "/v1/responses";
     readBody := Ok rawBody |}.

(* ================================================================== *)
(** * Properties *)

(* ------------------------------------------------------------------ *)
(** ** Strings *)

Section StringFacts.

Lemma prefix_iff (m s : string) :
  String.prefix m s = true <-> exists post, s = m ++ post.
Proof.
  revert s; induction m as [|a m IH]; intros s; simpl.
  - destruct s; simpl; split; eauto.
  - destruct s as [|b s]; simpl.
    + split; [discriminate | intros [post H]; discriminate].
    + destruct (ascii_dec a b) as [->|Hne].
      * rewrite IH. split; intros [post H]; exists post; congruence.
      * split; [discriminate | intros [post H]; congruence].
Qed.

Lemma includes_cons (m : string) (a : ascii) (s : string) :
  includes m (String a s) = String.prefix m (String a s) || includes m s.
Proof. reflexivity. Qed.

Lemma includes_nil (m : string) : includes m "" = String.prefix m "".
Proof. unfold includes. apply orb_false_r. Qed.

(** [includes] is the substring test. *)
Lemma includes_iff (m s : string) :
  includes m s = true <-> exists pre post, s = pre ++ m ++ post.
Proof.
  split.
  - induction s as [|a s IH].
    + rewrite includes_nil, prefix_iff. intros [post H]. now exists "", post.
    + rewrite includes_cons, orb_true_iff, prefix_iff. intros [[post H]|H].
      * now exists "", post.
      * destruct (IH H) as (pre & post & ->). now exists (String a pre), post.
  - intros (pre & post & ->). induction pre as [|a pre IH].
    + assert (Hp : String.prefix m (m ++ post) = true)
        by (apply prefix_iff; eauto).
      change ("" ++ m ++ post) with (m ++ post).
      destruct (m ++ post).
      * now rewrite includes_nil.
      * now rewrite includes_cons, Hp.
    + change (String a pre ++ m ++ post) with (String a (pre ++ m ++ post)).
      rewrite includes_cons, IH. apply orb_true_r.
Qed.

Lemma split_on_nonempty (c : ascii) (s : string) : split_on c s <> [].
Proof.
  destruct s as [|a s]; simpl; [discriminate|].
  destruct (Ascii.eqb a c); [discriminate|].
  destruct (split_on c s); discriminate.
Qed.

(** Splitting distributes over a separator. *)
Lemma split_on_app (c : ascii) (p s : string) :
  split_on c (p ++ String c s) = (split_on c p ++ split_on c s)%list.
Proof.
  induction p as [|a p IH]; simpl.
  - now rewrite Ascii.eqb_refl.
  - destruct (Ascii.eqb a c); rewrite IH; [reflexivity|].
    pose proof (split_on_nonempty c p) as Hne.
    destruct (split_on c p); [contradiction | reflexivity].
Qed.

Lemma split_on_absent (c : ascii) (s : string) :
  ~ has_char c s -> split_on c s = [s].
Proof.
  induction s as [|a s IH]; simpl; intros H; [reflexivity|].
  destruct (Ascii.eqb_spec a c) as [->|Hne]; [tauto|].
  rewrite IH by tauto. reflexivity.
Qed.

Lemma includes_char_absent (c : ascii) (s : string) :
  ~ has_char c s -> includes (String c "") s = false.
Proof.
  induction s as [|a s IH]; simpl; intros H; [reflexivity|].
  rewrite IH by tauto.
  destruct (ascii_dec c a) as [->|Hne]; [tauto|reflexivity].
Qed.

Lemma includes_char_app (c : ascii) (p s : string) :
  includes (String c "") (p ++ String c s) = true.
Proof.
  apply includes_iff. now exists p, s.
Qed.

Lemma pop_app (l1 l2 : list string) :
  l2 <> [] -> pop (l1 ++ l2)%list = pop l2.
Proof.
  unfold pop. intros H. induction l1 as [|x l1 IH]; simpl; [reflexivity|].
  destruct (l1 ++ l2)%list eqn:E; [|exact IH].
  apply app_eq_nil in E. tauto.
Qed.

End StringFacts.

(* ------------------------------------------------------------------ *)
(** ** Model normalization *)

Section ModelFacts.

(** The strip of the provider prefix: with [s] free of [/], the identifier
    looked up for [p/s] is [s]. *)
Lemma strip_prefix (p s : string) :
  ~ has_char "/" s -> pop (split_on "/" (p ++ "/" ++ s)) = s.
Proof.
  intros H. simpl. rewrite split_on_app, pop_app by apply split_on_nonempty.
  now rewrite split_on_absent.
Qed.

(** C8.  For every prefix [p] and every non-empty identifier [s] without a
    [/], [normalizeModel(p + "/" + s)] equals [normalizeModel(s)]: the strip
    removes everything up to and including the last [/].  In particular
    [normalizeModel("vendor/gpt-5.1-codex-high")] and
    [normalizeModel("gpt-5.1-codex-high")] are both ["gpt-5.1-codex"]. *)
Theorem normalizeModel_prefix_stripped (p s : string) :
  s <> "" -> ~ has_char "/" s ->
  normalizeModel (Some (p ++ "/" ++ s)) = normalizeModel (Some s)
  /\ normalizeModel (Some "vendor/gpt-5.1-codex-high") = JStr "gpt-5.1-codex"
  /\ normalizeModel (Some "gpt-5.1-codex-high") = JStr "gpt-5.1-codex".
Proof.
  intros Hne Hslash. split; [|split; reflexivity].
  unfold normalizeModel.
  assert (E1 : String.eqb (p ++ "/" ++ s) "" = false).
  { apply String.eqb_neq. destruct p; discriminate. }
  assert (E2 : String.eqb s "" = false) by now apply String.eqb_neq.
  rewrite E1, E2, strip_prefix by assumption.
  simpl (p ++ "/" ++ s). rewrite includes_char_app.
  now rewrite includes_char_absent.
Qed.

Lemma normalizeModel_prefix_stripped_witness :
  normalizeModel (Some ("openai" ++ "/" ++ "gpt-5-codex"))
    = normalizeModel (Some "gpt-5-codex")
  /\ normalizeModel (Some "vendor/gpt-5.1-codex-high") = JStr "gpt-5.1-codex"
  /\ normalizeModel (Some "gpt-5.1-codex-high") = JStr "gpt-5.1-codex".
Proof.
  apply (normalizeModel_prefix_stripped "openai" "gpt-5-codex").
  - discriminate.
  - simpl. intros H.
    repeat (destruct H as [H|H]; [discriminate H|]). exact H.
Defined.

End ModelFacts.

(* ------------------------------------------------------------------ *)
(** ** Refresh margin *)

Section RefreshFacts.

(** C7.  [shouldRefreshToken(state)] is true exactly when [now] is within
    60 seconds of [state.expires] or past it, computed on integer
    milliseconds as [expires - 60000 < now]; with [expires = now + 30000] it
    is true and with [expires = now + 90000] it is false. *)
Theorem shouldRefreshToken_margin (now : Z) (state : TokenState) :
  (shouldRefreshToken now state = true
     <-> exists e, expires state = Num e /\ e - 60000 < now)
  /\ shouldRefreshToken now (set_expires (Num (now + 30000)) state) = true
  /\ shouldRefreshToken now (set_expires (Num (now + 90000)) state) = false.
Proof.
  unfold shouldRefreshToken. repeat split.
  - destruct (expires state) as [e|]; [|discriminate].
    intros H. exists e. split; [reflexivity|]. now apply Z.ltb_lt.
  - intros (e & -> & H). now apply Z.ltb_lt.
  - simpl. apply Z.ltb_lt. lia.
  - simpl. apply Z.ltb_ge. lia.
Qed.

End RefreshFacts.

(* ------------------------------------------------------------------ *)
(** ** Response adaptation *)

Section ResponseFacts.

Context {P : Platform}.

Lemma isUsageLimitBody_iff (body : string) :
  isUsageLimitBody body = true <-> has_marker body.
Proof.
  unfold isUsageLimitBody, has_marker, occurs_in, USAGE_LIMIT_MARKERS.
  rewrite !orb_true_iff, !includes_iff. split.
  - intros [[[H|H]|H]|H]; eexists; (split; [|exact H]); simpl; tauto.
  - intros (m & Hin & H). simpl in Hin.
    destruct Hin as [<-|[<-|[<-|[<-|[]]]]]; tauto.
Qed.

Lemma ok_not_404 (up : Response) : ok up = true -> (status up =? 404) = false.
Proof.
  unfold ok. rewrite andb_true_iff, !Z.leb_le. intros [_ H].
  apply Z.eqb_neq. lia.
Qed.

(** C6.  On an upstream 404 the adapter reads the whole body as text (the
    text [response.text()] decodes from the bytes received; the empty
    string when the read fails or there is no body) and sends that text,
    with status 429 when the lowercased text contains a usage-limit marker
    and with status 404 otherwise. *)
Theorem upstream_404_remap (up : Response) (wasStreaming : bool) :
  status up = 404 ->
  let d := handleUpstreamResponse up wasStreaming in
  sent d = text_or_empty up
  /\ (forall chunks, body up = Some (chunks, true) ->
        sent d = decode_text (String.concat "" chunks))
  /\ (forall chunks, body up = Some (chunks, false) -> sent d = "")
  /\ (body up = None -> sent d = "")
  /\ (has_marker (text_or_empty up) -> code d = 429)
  /\ (~ has_marker (text_or_empty up) -> code d = 404).
Proof.
  intros H404. unfold handleUpstreamResponse. rewrite H404. simpl.
  repeat split.
  - intros chunks Hb. unfold text_or_empty, text. now rewrite Hb.
  - intros chunks Hb. unfold text_or_empty, text. now rewrite Hb.
  - intros Hb. unfold text_or_empty, text. now rewrite Hb.
  - intros Hm. apply isUsageLimitBody_iff in Hm. now rewrite Hm.
  - intros Hm. destruct (isUsageLimitBody _) eqn:E; [|reflexivity].
    apply isUsageLimitBody_iff in E. contradiction.
Qed.

Lemma terminal_event_hit (line : string) (ev : object) :
  terminal_line line ev -> terminal_event line = Some (get "response" ev).
Proof.
  intros (rest & -> & Hp & Hty). unfold terminal_event.
  assert (Hs : startsWith "data: " ("data: " ++ rest) = true)
    by (apply prefix_iff; eauto).
  rewrite Hs.
  change (substring_from 6 ("data: " ++ rest)) with rest.
  simpl negb. cbv iota. rewrite Hp. simpl.
  destruct Hty as [-> | ->]; reflexivity.
Qed.

Lemma is_str_true (lit : string) (v : option value) :
  is_str lit v = true -> v = Some (JStr lit).
Proof.
  destruct v as [[]|]; simpl; try discriminate.
  intros H. apply String.eqb_eq in H. now subst.
Qed.

Lemma terminal_event_miss (line : string) :
  not_terminal line -> terminal_event line = None.
Proof.
  intros Hnt. unfold terminal_event.
  destruct (startsWith "data: " line) eqn:Hs; [|reflexivity].
  apply prefix_iff in Hs. destruct Hs as [rest ->].
  change (substring_from 6 ("data: " ++ rest)) with rest. simpl negb. cbv iota.
  destruct (JSON_parse rest) as [data|] eqn:Hp; [|reflexivity].
  destruct data; try reflexivity. simpl.
  destruct (is_str "response.done" (get "type" fields)
            || is_str "response.completed" (get "type" fields)) eqn:E;
    [|reflexivity].
  exfalso. apply (Hnt fields). exists rest. repeat split; [assumption|].
  apply orb_true_iff in E. destruct E as [E|E]; apply is_str_true in E; auto.
Qed.

(** The loop returns at the first terminal event. *)
Lemma scan_lines_first (l1 : list string) (line : string) (l2 : list string)
  (ev : object) :
  Forall not_terminal l1 -> terminal_line line ev ->
  scan_lines (l1 ++ line :: l2) = get "response" ev.
Proof.
  intros Hall Ht. induction Hall as [|x l1 Hx _ IH]; simpl.
  - now rewrite (terminal_event_hit _ _ Ht).
  - now rewrite (terminal_event_miss _ Hx).
Qed.

Lemma scan_lines_none (lines : list string) :
  Forall not_terminal lines -> scan_lines lines = Some JNull.
Proof.
  intros Hall. induction Hall as [|x l Hx _ IH]; simpl; [reflexivity|].
  now rewrite (terminal_event_miss _ Hx).
Qed.

Lemma buffering_dispatch (up : Response) :
  ok up = true -> handleUpstreamResponse up false = convertSseToJson up.
Proof.
  intros Hok. unfold handleUpstreamResponse.
  now rewrite (ok_not_404 _ Hok), Hok.
Qed.

(** C2, as the code has it.  In buffering mode (upstream 2xx, the client did
    not ask for a stream), with no upstream body the adapter answers 502 with
    a JSON error.  With a body read to its end, the text accumulated from
    the decoder over the chunks is split into
    lines; lines are passed over until the first [data: ] line that parses
    to an event whose [type] is ["response.done"] or ["response.completed"];
    when that event carries a [response] other than [null], the answer is
    200 with that payload as one JSON document; when no line is such an
    event, the answer is 200 with the raw text as an event stream. *)
Theorem buffering_mode (up : Response) :
  ok up = true ->
  let d := handleUpstreamResponse up false in
  (body up = None ->
     d = {| code := 502; headers := JSON_HEADERS;
            sent := error_body "No response body from upstream" |})
  /\ (forall chunks, body up = Some (chunks, true) ->
        let fullText := decode_stream chunks in
        let lines := split_on "010" fullText in
        (forall l1 line l2 ev payload,
            lines = (l1 ++ line :: l2)%list ->
            Forall not_terminal l1 ->
            terminal_line line ev ->
            get "response" ev = Some payload ->
            payload <> JNull ->
            d = {| code := 200;
                   headers :=
                     [("Content-Type", "application/json; charset=utf-8")];
                   sent := stringify payload |})
        /\ (Forall not_terminal lines -> d = raw_fallback fullText)).
Proof.
  intros Hok. rewrite (buffering_dispatch _ Hok). cbv zeta.
  unfold convertSseToJson, parseSseStream. split.
  - intros ->. reflexivity.
  - intros chunks ->. split.
    + intros l1 line l2 ev payload -> Hall Ht Hresp Hnn.
      rewrite (scan_lines_first _ _ _ _ Hall Ht), Hresp.
      destruct payload; congruence.
    + intros Hall. now rewrite (scan_lines_none _ Hall).
Qed.

(** C10.  In buffering mode, when the first terminal event among the lines
    of the accumulated (decoded) text has no [response] field, or a [null]
    one, no JSON document is sent for it, whatever the later lines hold:
    the answer is the degraded fallback, 200 with the raw accumulated text
    as an event stream, as when no terminal event is found. *)
Theorem terminal_without_response (up : Response) (chunks l1 l2 : list string)
  (line : string) (ev : object) :
  ok up = true ->
  body up = Some (chunks, true) ->
  split_on "010" (decode_stream chunks) = (l1 ++ line :: l2)%list ->
  Forall not_terminal l1 ->
  terminal_line line ev ->
  get "response" ev = None \/ get "response" ev = Some JNull ->
  handleUpstreamResponse up false = raw_fallback (decode_stream chunks).
Proof.
  intros Hok Hb Hsplit Hall Ht Hresp. rewrite (buffering_dispatch _ Hok).
  unfold convertSseToJson, parseSseStream. rewrite Hb, Hsplit.
  rewrite (scan_lines_first _ _ _ _ Hall Ht).
  destruct Hresp as [-> | ->]; reflexivity.
Qed.

End ResponseFacts.

Section ResponseExamples.

(** A concrete line is no terminal event: its remainder is read and its
    [type] compared. *)
Ltac not_terminal_line :=
  let ev := fresh "ev" in
  let rest := fresh "rest" in
  let Hl := fresh "Hl" in
  let Hp := fresh "Hp" in
  let Hty := fresh "Hty" in
  intros ev (rest & Hl & Hp & Hty);
  first
    [ discriminate Hl
    | injection Hl as Hl; subst rest; vm_compute in Hp;
      first [ discriminate Hp
            | injection Hp as Hp; subst ev;
              destruct Hty as [Hty|Hty]; vm_compute in Hty;
              discriminate Hty ] ].

Ltac terminal_line_here :=
  eexists; split; [reflexivity | split; [vm_compute; reflexivity |]];
  vm_compute; auto.

(** The end-to-end extraction of the specification: two events, the second
    terminal, give [{"id":"r1"}] with status 200. *)
Lemma buffering_mode_witness :
  handleUpstreamResponse (P := reference)
    (upstream_200 [line_delta ++ nl ++ nl ++ line_done_r1 ++ nl ++ nl]) false
  = {| code := 200;
       headers := [("Content-Type", "application/json; charset=utf-8")];
       sent := "{" ++ q "id" ++ ":" ++ q "r1" ++ "}" |}.
Proof.
  pose (up := upstream_200 [line_delta ++ nl ++ nl ++ line_done_r1 ++ nl ++ nl]).
  destruct (buffering_mode (P := reference) up eq_refl) as [_ H].
  destruct (H _ eq_refl) as [Hfirst _].
  apply (Hfirst [line_delta; ""] line_done_r1 [""; ""]
                [("type", JStr "response.done");
                 ("response", JObj [("id", JStr "r1")])]
                (JObj [("id", JStr "r1")])).
  - vm_compute. reflexivity.
  - repeat constructor; not_terminal_line.
  - terminal_line_here.
  - reflexivity.
  - discriminate.
Defined.

(** A first terminal event whose [response] is [null]: the raw text is sent,
    not the document [null]. *)
Lemma buffering_mode_null_payload :
  ~ (forall (up : Response) (chunks l1 l2 : list string) (line : string)
            (ev : object) (payload : value),
        ok up = true ->
        body up = Some (chunks, true) ->
        split_on "010" (@decode_stream reference chunks)
        = (l1 ++ line :: l2)%list ->
        Forall (not_terminal (P := reference)) l1 ->
        terminal_line (P := reference) line ev ->
        get "response" ev = Some payload ->
        handleUpstreamResponse (P := reference) up false
        = {| code := 200;
             headers := [("Content-Type", "application/json; charset=utf-8")];
             sent := stringify (P := reference) payload |}).
Proof.
  intros H.
  specialize (H (upstream_200 [line_done_null]) [line_done_null] [] []
                line_done_null
                [("type", JStr "response.done"); ("response", JNull)] JNull
                eq_refl eq_refl eq_refl (Forall_nil _)).
  assert (Ht : terminal_line (P := reference) line_done_null
                 [("type", JStr "response.done"); ("response", JNull)])
    by terminal_line_here.
  specialize (H Ht eq_refl). vm_compute in H. discriminate H.
Qed.

(** A bare terminal event followed by a complete one: the fallback. *)
Lemma terminal_without_response_witness :
  handleUpstreamResponse (P := reference)
    (upstream_200 [line_delta ++ nl; line_done_bare ++ nl ++ line_completed_r2])
    false
  = raw_fallback (line_delta ++ nl ++ line_done_bare ++ nl ++ line_completed_r2).
Proof.
  rewrite (terminal_without_response (P := reference)
             (upstream_200
                [line_delta ++ nl; line_done_bare ++ nl ++ line_completed_r2])
             [line_delta ++ nl; line_done_bare ++ nl ++ line_completed_r2]
             [line_delta] [line_completed_r2] line_done_bare
             [("type", JStr "response.done")]).
  - vm_compute. reflexivity.
  - reflexivity.
  - reflexivity.
  - vm_compute. reflexivity.
  - repeat constructor; not_terminal_line.
  - terminal_line_here.
  - left. reflexivity.
Defined.

(** An upstream 404 that names the usage limit becomes a 429. *)
Lemma upstream_404_remap_witness :
  let up := {| status := 404;
               body := Some (["Usage_Limit_Reached: try "; "later"], true) |} in
  let d := handleUpstreamResponse (P := reference) up true in
  code d = 429 /\ sent d = "Usage_Limit_Reached: try later".
Proof.
  cbv zeta.
  destruct (upstream_404_remap (P := reference)
              {| status := 404;
                 body := Some (["Usage_Limit_Reached: try "; "later"], true) |}
              true eq_refl) as (Hsent & _ & _ & _ & H429 & _).
  split; [|rewrite Hsent; reflexivity].
  apply H429. exists "usage_limit_reached". split; [simpl; tauto|].
  exists "", ": try later". reflexivity.
Defined.

(** The decoder at work: a byte order mark before the first line, and a
    chunk boundary inside it, do not hide the terminal event. *)
Lemma buffering_mode_after_bom :
  handleUpstreamResponse (P := reference)
    (upstream_200 [bom ++ "da"; "ta: " ++ substring_from 6 line_done_r1 ++ nl])
    false
  = {| code := 200;
       headers := [("Content-Type", "application/json; charset=utf-8")];
       sent := "{" ++ q "id" ++ ":" ++ q "r1" ++ "}" |}.
Proof. vm_compute. reflexivity. Qed.

End ResponseExamples.

(* ------------------------------------------------------------------ *)
(** ** The route gate *)

Section RouteFacts.

Context {P : Platform}.

Lemma method_is_POST (m : option string) :
  is_str "POST" (option_map JStr m) = true <-> m = Some "POST".
Proof.
  destruct m as [m|]; simpl; [|split; discriminate].
  rewrite String.eqb_eq. split; congruence.
Qed.

(** The gate as the code has it.  A request whose method is not [POST], or whose
    URL does not start with [/v1/responses], is answered 404 with the JSON
    body [{"error": "Not found"}]; the handler takes no other step (no body
    read, no token check, no transformation) and leaves the token state as
    it was. *)
Theorem route_gate (w : World) (req : Request) (tokenState : TokenState) :
  method req <> Some "POST"
  \/ (forall rest, url req <> Some ("/v1/responses" ++ rest)) ->
  handleRequest w req tokenState
  = {| events := [Respond not_found]; rejected := None;
       final_state := tokenState |}.
Proof.
  intros H. unfold handleRequest.
  destruct (is_str "POST" (option_map JStr (method req))) eqn:Em; simpl;
    [|reflexivity].
  apply method_is_POST in Em.
  destruct H as [H|H]; [contradiction|].
  destruct (url req) as [u|] eqn:Eu; [|reflexivity].
  destruct (startsWith "/v1/responses" u) eqn:Es; [|reflexivity].
  apply prefix_iff in Es. destruct Es as [rest ->].
  exfalso. apply (H rest). reflexivity.
Qed.

(** Past the gate the first step is the read of the body. *)
Lemma route_open (w : World) (req : Request) (tokenState : TokenState)
  (rest : string) :
  method req = Some "POST" -> url req = Some ("/v1/responses" ++ rest) ->
  exists later, events (handleRequest w req tokenState) = ReadBody :: later.
Proof.
  intros Hm Hu. unfold handleRequest.
  apply method_is_POST in Hm. rewrite Hm, Hu.
  assert (Hs : startsWith "/v1/responses" ("/v1/responses" ++ rest) = true)
    by (apply prefix_iff; eauto).
  rewrite Hs. simpl.
  destruct (readBody req); [|simpl; eauto].
  destruct (JSON_parse a); [|simpl; eauto].
  destruct (ensureValidToken _ _) as [[]]; [|simpl; eauto].
  destruct (transform_parsed _) as [[]|]; [|simpl; eauto].
  destruct (backend_reply w); simpl; eauto.
Qed.

End RouteFacts.

Section RouteExamples.

(** [GET /v1/responses] and [POST /other] stop at the gate. *)
Lemma route_gate_witness :
  handleRequest (P := reference) silent_world
    {| method := Some "GET"; url := Some "/v1/responses"; readBody := Ok "{}" |}
    some_state
  = {| events := [Respond (not_found (P := reference))]; rejected := None;
       final_state := some_state |}
  /\ handleRequest (P := reference) silent_world
       {| method := Some "POST"; url := Some "/other"; readBody := Ok "{}" |}
       some_state
     = {| events := [Respond (not_found (P := reference))]; rejected := None;
          final_state := some_state |}.
Proof.
  split; apply (route_gate (P := reference)).
  - left. discriminate.
  - right. intros rest H. discriminate H.
Defined.

(** The text of the 404 body on the reference platform. *)
Lemma not_found_text :
  sent (not_found (P := reference)) = "{" ++ q "error" ++ ":" ++ q "Not found" ++ "}".
Proof. reflexivity. Qed.

(** [POST /v1/responses/extra] is not [POST /v1/responses], and yet passes
    the gate: the body is read, the token checked, the body transformed and
    the backend called. *)
Lemma route_gate_not_exact :
  ~ (forall (w : World) (req : Request) (tokenState : TokenState),
        method req <> Some "POST" \/ url req <> Some "/v1/responses" ->
        events (handleRequest (P := reference) w req tokenState)
        = [Respond (not_found (P := reference))]).
Proof.
  intros H.
  specialize (H silent_world
                {| method := Some "POST"; url := Some "/v1/responses/extra";
                   readBody := Ok "{}" |}
                some_state).
  assert (E : events
                (handleRequest (P := reference) silent_world
                   {| method := Some "POST"; url := Some "/v1/responses/extra";
                      readBody := Ok "{}" |} some_state)
              = [ReadBody; EnsureValidToken; TransformRequestBody; FetchBackend;
                 Respond {| code := 502; headers := JSON_HEADERS;
                            sent := error_body (P := reference)
                                      "Failed to reach ChatGPT backend" |}])
    by reflexivity.
  rewrite E in H. discriminate H. right. discriminate.
Qed.

(** C3, at the inputs the code mishandles.  [POST /v1/responses/extra] and
    [POST /v1/responsesXYZ] are not the one route [POST /v1/responses] and
    should be answered 404 before anything else runs; the gate tests the
    URL with [startsWith], so both requests pass it: the body is read, the
    token checked, the body transformed and the backend called (which here
    does not answer, hence the 502). *)
Theorem route_gate_passes_longer_paths :
  let forwarded :=
    [ReadBody; EnsureValidToken; TransformRequestBody; FetchBackend;
     Respond {| code := 502; headers := JSON_HEADERS;
                sent := error_body (P := reference)
                          "Failed to reach ChatGPT backend" |}] in
  events (handleRequest (P := reference) silent_world
            {| method := Some "POST"; url := Some "/v1/responses/extra";
               readBody := Ok "{}" |} some_state) = forwarded
  /\ events (handleRequest (P := reference) silent_world
               {| method := Some "POST"; url := Some "/v1/responsesXYZ";
                  readBody := Ok "{}" |} some_state) = forwarded
  /\ forwarded <> [Respond (not_found (P := reference))].
Proof.
  cbv zeta. split; [|split].
  - vm_compute. reflexivity.
  - vm_compute. reflexivity.
  - discriminate.
Qed.

End RouteExamples.

(* ------------------------------------------------------------------ *)
(** ** Request transformation *)

Section ObjectFacts.

Lemma get_delete_same (k : string) (o : object) : get k (delete k o) = None.
Proof.
  induction o as [|[k' v] o IH]; simpl; [reflexivity|].
  destruct (String.eqb k k') eqn:E; [exact IH|]. simpl. now rewrite E.
Qed.

Lemma get_delete_other (k k' : string) (o : object) :
  k <> k' -> get k (delete k' o) = get k o.
Proof.
  intros Hne. induction o as [|[k0 v] o IH]; simpl; [reflexivity|].
  destruct (String.eqb_spec k' k0) as [->|Hk'].
  - rewrite IH. apply String.eqb_neq in Hne. now rewrite Hne.
  - simpl. now rewrite IH.
Qed.

Lemma get_set_same (k : string) (v : value) (o : object) :
  get k (set k v o) = Some v.
Proof.
  induction o as [|[k' v'] o IH]; simpl.
  - now rewrite String.eqb_refl.
  - destruct (String.eqb k k') eqn:E; simpl.
    + now rewrite String.eqb_refl.
    + now rewrite E.
Qed.

Lemma get_set_other (k k' : string) (v : value) (o : object) :
  k <> k' -> get k (set k' v o) = get k o.
Proof.
  intros Hne. induction o as [|[k0 v0] o IH]; simpl.
  - apply String.eqb_neq in Hne. now rewrite Hne.
  - destruct (String.eqb_spec k' k0) as [->|Hk']; simpl.
    + apply String.eqb_neq in Hne. rewrite Hne.
      apply get_delete_other. now apply String.eqb_neq.
    + now rewrite IH.
Qed.

End ObjectFacts.

Section TransformFacts.

Context {P : Platform}.

Lemma bind_Ok {A B : Type} (m : outcome A) (f : A -> outcome B) (b : B) :
  bind m f = Ok b -> exists a, m = Ok a /\ f a = Ok b.
Proof. destruct m; simpl; [eauto | discriminate]. Qed.

(** The filter keeps the items that are not references. *)
Lemma filter_items_survivors (input kept : list value) :
  filter_items input = Ok kept -> kept = survivors input.
Proof.
  revert kept. induction input as [|item input IH]; simpl; intros kept H.
  - congruence.
  - apply bind_Ok in H. destruct H as (keep & Hk & H).
    apply bind_Ok in H. destruct H as (rest & Hr & H).
    injection H as <-. rewrite (IH _ Hr).
    unfold keep_item, prop in Hk.
    destruct item; simpl in Hk; try discriminate; injection Hk as <-;
      reflexivity.
Qed.

Lemma filterInput_survivors (input out : list value) :
  filterInput input = Ok out -> out = List.map strip_id (survivors input).
Proof.
  unfold filterInput. intros H. apply bind_Ok in H.
  destruct H as (kept & Hk & H). injection H as <-.
  now rewrite (filter_items_survivors _ _ Hk).
Qed.

Lemma filter_items_objects (input : list value) :
  forallb is_object input = true -> exists kept, filter_items input = Ok kept.
Proof.
  induction input as [|item input IH]; simpl; [eauto|].
  rewrite andb_true_iff. intros [Hi Hrest].
  destruct (IH Hrest) as [kept ->]. destruct item; try discriminate.
  simpl. eauto.
Qed.

(** The copy without [id] keeps every other field. *)
Lemma strip_id_frame (item : value) (k : string) :
  k <> "id" -> field k (strip_id item) = field k item.
Proof.
  intros Hk. unfold field, strip_id. destruct item; try reflexivity.
  destruct (truthy_opt (get "id" fields)); [|reflexivity].
  simpl. now apply get_delete_other.
Qed.

Lemma strip_input_other (body body' : object) (k : string) :
  strip_input body = Ok body' -> k <> "input" -> get k body' = get k body.
Proof.
  unfold strip_input. intros H Hk.
  destruct (get "input" body) as [[]|]; try congruence.
  apply bind_Ok in H. destruct H as (input' & _ & H). injection H as <-.
  now apply get_set_other.
Qed.

Lemma ensure_reasoning_other (body body' : object) (k : string) :
  ensure_reasoning body = Ok body' -> k <> "reasoning" ->
  get k body' = get k body.
Proof.
  unfold ensure_reasoning. intros H Hk.
  destruct (get "reasoning" body) as [v|].
  - destruct v; simpl in H;
      repeat match type of H with
             | (if ?c then _ else _) = _ => destruct c
             end;
      try discriminate; injection H as <-;
      try reflexivity; now apply get_set_other.
  - injection H as <-. now apply get_set_other.
Qed.

Lemma ensure_include_other (body body' : object) (k : string) :
  ensure_include body = Ok body' -> k <> "include" ->
  get k body' = get k body.
Proof.
  unfold ensure_include. intros H Hk.
  destruct (get "include" body) as [v|].
  - destruct v; simpl in H;
      repeat match type of H with
             | (if ?c then _ else _) = _ => destruct c
             end;
      try discriminate; injection H as <-;
      try reflexivity; now apply get_set_other.
  - injection H as <-. now apply get_set_other.
Qed.

(** The passes of [transformRequestBody], one after the other. *)
Lemma transform_passes (body out : object) (wasStreaming : bool) :
  transformRequestBody body = Ok (out, wasStreaming) ->
  exists model b1 b2 b3,
    normalizeModel_of (get "model" body) = Ok model
    /\ strip_input
         (set "stream" (JBool true)
            (set "store" (JBool false) (set "model" model body))) = Ok b1
    /\ ensure_reasoning b1 = Ok b2
    /\ ensure_include b2 = Ok b3
    /\ out = delete "max_completion_tokens" (delete "max_output_tokens" b3)
    /\ wasStreaming = match get "stream" body with
                      | Some (JBool true) => true
                      | _ => false
                      end.
Proof.
  unfold transformRequestBody. intros H.
  apply bind_Ok in H. destruct H as (model & Hm & H).
  apply bind_Ok in H. destruct H as (b1 & H1 & H).
  apply bind_Ok in H. destruct H as (b2 & H2 & H).
  apply bind_Ok in H. destruct H as (b3 & H3 & H).
  injection H as <- <-. exists model, b1, b2, b3.
  repeat split; assumption.
Qed.

Lemma gets_before_input (body : object) (model : value) (k : string) :
  k <> "model" -> k <> "store" -> k <> "stream" ->
  get k (set "stream" (JBool true)
           (set "store" (JBool false) (set "model" model body)))
  = get k body.
Proof.
  intros. now rewrite !get_set_other.
Qed.

(** A body that follows the interface is transformed without a throw. *)
Lemma transform_total (body : object) :
  well_typed body = true ->
  exists out wasStreaming, transformRequestBody body = Ok (out, wasStreaming).
Proof.
  unfold well_typed. rewrite !andb_true_iff. intros [[[Hm Hi] Hr] Hc].
  unfold transformRequestBody.
  assert (Em : exists model, normalizeModel_of (get "model" body) = Ok model).
  { destruct (get "model" body) as [[]|]; try discriminate; simpl; eauto. }
  destruct Em as [model ->]. simpl bind.
  set (b0 := set "stream" _ _).
  assert (E1 : exists b1, strip_input b0 = Ok b1).
  { unfold strip_input, b0. rewrite gets_before_input by discriminate.
    destruct (get "input" body) as [[]|]; try discriminate; eauto.
    unfold filterInput. destruct (filter_items_objects _ Hi) as [kept ->].
    simpl. eauto. }
  destruct E1 as [b1 E1]. rewrite E1. simpl bind.
  assert (E2 : exists b2, ensure_reasoning b1 = Ok b2).
  { unfold ensure_reasoning.
    rewrite (strip_input_other _ _ "reasoning" E1) by discriminate.
    unfold b0. rewrite gets_before_input by discriminate.
    destruct (get "reasoning" body) as [[]|]; try discriminate; eauto. }
  destruct E2 as [b2 E2]. rewrite E2. simpl bind.
  assert (E3 : exists b3, ensure_include b2 = Ok b3).
  { unfold ensure_include.
    rewrite (ensure_reasoning_other _ _ "include" E2) by discriminate.
    rewrite (strip_input_other _ _ "include" E1) by discriminate.
    unfold b0. rewrite gets_before_input by discriminate.
    destruct (get "include" body) as [[]|]; try discriminate; eauto.
    destruct (existsb _ _); eauto. }
  destruct E3 as [b3 ->]. simpl. eauto.
Qed.

(** C4.  Whatever the input holds in [store] and [stream], the body that
    [transformRequestBody] returns has [store === false] and
    [stream === true], and [wasStreaming] is true exactly when the input's
    [stream] was the boolean [true]; a body that follows the interface
    always gets a result. *)
Theorem transform_forces_flags (body : object) :
  (well_typed body = true ->
     exists out wasStreaming, transformRequestBody body = Ok (out, wasStreaming))
  /\ (forall out wasStreaming,
        transformRequestBody body = Ok (out, wasStreaming) ->
        get "store" out = Some (JBool false)
        /\ get "stream" out = Some (JBool true)
        /\ (wasStreaming = true <-> get "stream" body = Some (JBool true))).
Proof.
  split; [apply transform_total|].
  intros out ws H. apply transform_passes in H.
  destruct H as (model & b1 & b2 & b3 & _ & H1 & H2 & H3 & -> & ->).
  repeat split.
  - rewrite !get_delete_other by discriminate.
    rewrite (ensure_include_other _ _ _ H3) by discriminate.
    rewrite (ensure_reasoning_other _ _ _ H2) by discriminate.
    rewrite (strip_input_other _ _ _ H1) by discriminate.
    rewrite get_set_other by discriminate. apply get_set_same.
  - rewrite !get_delete_other by discriminate.
    rewrite (ensure_include_other _ _ _ H3) by discriminate.
    rewrite (ensure_reasoning_other _ _ _ H2) by discriminate.
    rewrite (strip_input_other _ _ _ H1) by discriminate.
    apply get_set_same.
  - destruct (get "stream" body) as [[| [] | | | | |]|]; congruence.
  - intros ->. reflexivity.
Qed.

Lemma Forall2_map_r {A B : Type} (R : A -> B -> Prop) (f : A -> B)
  (l : list A) :
  (forall x, R x (f x)) -> Forall2 R l (List.map f l).
Proof.
  intros H. induction l; simpl; constructor; auto.
Qed.

(** C9.  [transformRequestBody] touches only [model], [store], [stream],
    [input], [reasoning], [include], [max_output_tokens] and
    [max_completion_tokens]: every other top-level field reads the same
    before and after; and the new [input] lists the items that are not
    references, in order, each with every field other than [id] as it
    was. *)
Theorem transform_frame (body out : object) (wasStreaming : bool) :
  transformRequestBody body = Ok (out, wasStreaming) ->
  (forall k, ~ In k RECOGNIZED -> get k out = get k body)
  /\ (forall items, get "input" body = Some (JArr items) ->
        exists items',
          get "input" out = Some (JArr items')
          /\ Forall2 (fun item item' =>
                        forall k, k <> "id" -> field k item' = field k item)
                     (survivors items) items').
Proof.
  intros H. apply transform_passes in H.
  destruct H as (model & b1 & b2 & b3 & _ & H1 & H2 & H3 & -> & _).
  split.
  - intros k Hk. unfold RECOGNIZED in Hk. simpl in Hk.
    assert (Hne : forall k', In k' RECOGNIZED -> k <> k').
    { intros k' Hin ->. now apply Hk. }
    rewrite !get_delete_other by (apply Hne; simpl; tauto).
    rewrite (ensure_include_other _ _ _ H3) by (apply Hne; simpl; tauto).
    rewrite (ensure_reasoning_other _ _ _ H2) by (apply Hne; simpl; tauto).
    rewrite (strip_input_other _ _ _ H1) by (apply Hne; simpl; tauto).
    apply gets_before_input; apply Hne; simpl; tauto.
  - intros items Hi.
    rewrite !get_delete_other by discriminate.
    rewrite (ensure_include_other _ _ _ H3) by discriminate.
    rewrite (ensure_reasoning_other _ _ _ H2) by discriminate.
    unfold strip_input in H1. rewrite gets_before_input in H1 by discriminate.
    rewrite Hi in H1. apply bind_Ok in H1. destruct H1 as (items' & Hf & H1).
    injection H1 as <-. exists items'. rewrite get_set_same. split; [reflexivity|].
    rewrite (filterInput_survivors _ _ Hf).
    apply Forall2_map_r. intros item k Hk. now apply strip_id_frame.
Qed.

(** The input filtering of the specification's example: the reference is
    dropped, the [id] of the message is stripped, its [text] kept. *)
Lemma filterInput_example :
  filterInput
    [ JObj [("type", JStr "item_reference"); ("id", JStr "a")];
      JObj [("type", JStr "message"); ("id", JStr "b"); ("text", JStr "x")] ]
  = Ok [ JObj [("type", JStr "message"); ("text", JStr "x")] ].
Proof. reflexivity. Qed.

(** An item whose [id] is truthy or absent leaves without [id]. *)
Lemma strip_id_truthy (item : value) :
  truthy_opt (field "id" item) = true \/ field "id" item = None ->
  field "id" (strip_id item) = None.
Proof.
  unfold field, strip_id. destruct item; try reflexivity. simpl.
  intros [H|H].
  - rewrite H. apply get_delete_same.
  - rewrite H. simpl. exact H.
Qed.

(** C5, at the input the code mishandles.  An item whose [id] is present
    and falsy (here the empty string) is not a reference and should leave
    without its [id]; [filterInput] returns it unchanged, and so does
    [transformRequestBody]. *)
Theorem filterInput_keeps_falsy_id :
  let item := JObj [("type", JStr "message"); ("id", JStr "")] in
  filterInput [item] = Ok [item]
  /\ transformRequestBody [("model", JStr "gpt-5.1"); ("input", JArr [item])]
     = Ok ([ ("model", JStr "gpt-5.1");
             ("input", JArr [item]);
             ("store", JBool false);
             ("stream", JBool true);
             ("reasoning",
              JObj [("effort", JStr "medium"); ("summary", JStr "auto")]);
             ("include", JArr [JStr ENCRYPTED]) ],
           false).
Proof. split; reflexivity. Qed.

End TransformFacts.

Section TransformExamples.

(** A non-streaming request that asks for storage. *)
Lemma transform_forces_flags_witness :
  let body := [ ("model", JStr "openai/gpt-5-codex");
                ("store", JBool true);
                ("stream", JBool false) ] in
  exists out wasStreaming,
    transformRequestBody (P := reference) body = Ok (out, wasStreaming)
    /\ get "store" out = Some (JBool false)
    /\ get "stream" out = Some (JBool true)
    /\ (wasStreaming = true <-> get "stream" body = Some (JBool true)).
Proof.
  cbv zeta.
  destruct (transform_forces_flags (P := reference)
              [ ("model", JStr "openai/gpt-5-codex");
                ("store", JBool true);
                ("stream", JBool false) ]) as [Htotal Hflags].
  destruct (Htotal eq_refl) as (out & wasStreaming & E).
  exists out, wasStreaming. split; [exact E|]. exact (Hflags _ _ E).
Defined.

(** A request with fields the proxy does not know, at the top level and in
    an item. *)
Lemma transform_frame_witness :
  let item := JObj [ ("type", JStr "message"); ("id", JStr "b");
                     ("text", JStr "x"); ("vendor_note", JNum 7) ] in
  let body := [ ("model", JStr "gpt-5.2-high");
                ("tools", JArr [JObj [("name", JStr "shell")]]);
                ("input", JArr [item]);
                ("max_output_tokens", JNum 4096);
                ("x-trace", JStr "t-1") ] in
  exists out wasStreaming items',
    transformRequestBody (P := reference) body = Ok (out, wasStreaming)
    /\ get "tools" out = get "tools" body
    /\ get "x-trace" out = get "x-trace" body
    /\ get "input" out = Some (JArr items')
    /\ Forall2 (fun item item' =>
                  forall k, k <> "id" -> field k item' = field k item)
               [item] items'.
Proof.
  cbv zeta.
  set (item := JObj [ ("type", JStr "message"); ("id", JStr "b");
                      ("text", JStr "x"); ("vendor_note", JNum 7) ]).
  set (body := [ ("model", JStr "gpt-5.2-high");
                 ("tools", JArr [JObj [("name", JStr "shell")]]);
                 ("input", JArr [item]);
                 ("max_output_tokens", JNum 4096);
                 ("x-trace", JStr "t-1") ]).
  destruct (transform_total (P := reference) body eq_refl)
    as (out & wasStreaming & E).
  destruct (transform_frame (P := reference) body out wasStreaming E)
    as [Hother Hinput].
  destruct (Hinput [item] eq_refl) as (items' & Hi & Hitems).
  exists out, wasStreaming, items'.
  split; [exact E|].
  split; [apply Hother; simpl; intuition discriminate|].
  split; [apply Hother; simpl; intuition discriminate|].
  split; [exact Hi | exact Hitems].
Defined.

End TransformExamples.

(* ------------------------------------------------------------------ *)
(** ** The account-id binding *)

Section TokenFacts.

Context {P : Platform}.

(** [loadTokens] builds a coherent state, or none. *)
Lemma loadTokens_coherent (accessToken refreshToken : string)
  (state : TokenState) :
  loadTokens accessToken refreshToken = Ok state -> coherent state.
Proof.
  unfold loadTokens, coherent. intros H.
  destruct (getAccountId (JStr accessToken)) as [id|] eqn:E; [|discriminate].
  injection H as <-. exact E.
Qed.



End TokenFacts.

Section TokenExamples.

Lemma loaded_state_coherent : coherent (P := reference) loaded_state.
Proof. reflexivity. Qed.

Lemma loadTokens_loaded_state :
  loadTokens (P := reference) jwt_acct_1 "refresh-1" = Ok loaded_state.
Proof. reflexivity. Qed.

(** A refresh that answers with a token of another account rebinds the
    account identifier. *)
Lemma ensureValidToken_rebinds :
  ensureValidToken (P := reference) (world_answering jwt_acct_2) loaded_state
  = (Ok tt,
     {| accessToken := JStr jwt_acct_2; refreshToken := JStr "refresh-2";
        expires := Num 1750003600500; accountId := JStr "acct_2";
        relayUrl := None; relayKey := None |}).
Proof. reflexivity. Qed.

(** C1, at the input the code mishandles.  The state is coherent and its
    token has expired; the relay (and likewise the auth server) answers 200
    with an access token that names no account.  [fetchFromRelay] (and
    likewise the auth-server path of [ensureValidToken]) stores the new
    access token and expiry and only then fails to derive the account
    identifier: the state it leaves holds the new access token beside the
    account identifier of the old one, and is no longer due for a
    refresh. *)
Theorem refresh_failure_leaves_stale_accountId :
  let left_by_relay :=
    snd (fetchFromRelay (P := reference)
           (relay_reply (world_answering jwt_no_account)) relay_state) in
  let left_by_auth :=
    snd (ensureValidToken (P := reference)
           (world_answering jwt_no_account) loaded_state) in
  coherent (P := reference) relay_state
  /\ coherent (P := reference) loaded_state
  /\ left_by_relay
     = {| accessToken := JStr jwt_no_account; refreshToken := JStr "";
          expires := Num 1800000000000; accountId := JStr "acct_1";
          relayUrl := Some "https://relay.example/token";
          relayKey := Some "key" |}
  /\ left_by_auth
     = {| accessToken := JStr jwt_no_account; refreshToken := JStr "refresh-2";
          expires := Num 1750003600500; accountId := JStr "acct_1";
          relayUrl := None; relayKey := None |}
  /\ ~ coherent (P := reference) left_by_relay
  /\ ~ coherent (P := reference) left_by_auth
  /\ shouldRefreshToken 1750000001000 left_by_relay = false
  /\ shouldRefreshToken 1750000001000 left_by_auth = false.
Proof.
  cbv zeta. repeat split; try reflexivity;
    unfold coherent; vm_compute; discriminate.
Qed.

End TokenExamples.

(* ================================================================== *)
(** * Further properties of the sources *)

(* ------------------------------------------------------------------ *)
(** ** Model normalization, beyond the prefix *)

Section NormalizeFacts.

Lemma includes_trans (a b c : string) :
  includes a b = true -> includes b c = true -> includes a c = true.
Proof.
  rewrite !includes_iff.
  intros (p1 & q1 & ->) (p2 & q2 & ->).
  exists (p2 ++ p1), (q1 ++ q2).
  assert (Happ : forall x y z : string, (x ++ y) ++ z = x ++ y ++ z).
  { intros x y z. induction x; simpl; congruence. }
  now rewrite !Happ.
Qed.

Lemma has_char_dec (c : ascii) (s : string) : {has_char c s} + {~ has_char c s}.
Proof.
  induction s as [|a s IH]; simpl; [now right|].
  destruct (ascii_dec a c); [now left; left|].
  destruct IH; [now left; right | right; tauto].
Qed.

Lemma has_char_split (c : ascii) (s : string) :
  has_char c s -> exists p t, s = p ++ String c t.
Proof.
  induction s as [|a s IH]; simpl; [tauto|]. intros [->|H].
  - now exists "", s.
  - destruct (IH H) as (p & t & ->). now exists (String a p), t.
Qed.

Lemma has_char_includes (c : ascii) (s : string) :
  has_char c s <-> includes (String c "") s = true.
Proof.
  split.
  - intros H. destruct (has_char_split _ _ H) as (p & t & ->).
    apply includes_char_app.
  - intros H. destruct (has_char_dec c s) as [|Hn]; [assumption|].
    rewrite (includes_char_absent _ _ Hn) in H. discriminate.
Qed.

(** The last segment of a split holds no separator. *)
Lemma pop_split_clean (c : ascii) (s : string) :
  ~ has_char c (pop (split_on c s)).
Proof.
  unfold pop. induction s as [|a s IH]; simpl; [tauto|].
  pose proof (split_on_nonempty c s) as Hne.
  destruct (Ascii.eqb_spec a c) as [->|Hac].
  - destruct (split_on c s); [contradiction | exact IH].
  - destruct (split_on c s) as [|h [|h' r]]; [contradiction| |exact IH].
    simpl in *. intros [H|H]; [contradiction | now apply IH].
Qed.

Lemma own_entry_In (k v : string) (m : list (string * string)) :
  own_entry k m = Some v -> In (k, v) m.
Proof.
  induction m as [|[k' v'] m IH]; simpl; [discriminate|].
  destruct (String.eqb_spec k k') as [->|Hne].
  - intros H. injection H as ->. now left.
  - intros H. right. now apply IH.
Qed.

Lemma In_by_test (c : string) (l : list string) :
  existsb (String.eqb c) l = true -> In c l.
Proof.
  intros H. apply existsb_exists in H. destruct H as (x & Hin & Hx).
  apply String.eqb_eq in Hx. now subst.
Qed.

Lemma pattern_fallback_range (lower modelId : string) :
  In (pattern_fallback lower modelId) CANONICAL
  \/ pattern_fallback lower modelId = modelId.
Proof.
  unfold pattern_fallback.
  repeat match goal with
         | |- context [if ?c then _ else _] => destruct c
         end;
    try (left; apply In_by_test; reflexivity).
  now right.
Qed.

(** What [normalizeModel] can return as a string: a canonical name, or the
    identifier it was looking up. *)
Lemma normalizeModelId_range (modelId r : string) :
  normalizeModelId modelId = JStr r -> In r CANONICAL \/ r = modelId.
Proof.
  unfold normalizeModelId, MODEL_MAP_read. intros H.
  assert (Hval : forall k v, own_entry k MODEL_MAP = Some v -> In v CANONICAL).
  { intros k v Hk. apply own_entry_In in Hk.
    apply (in_map snd) in Hk. exact Hk. }
  destruct (own_entry modelId MODEL_MAP) as [v|] eqn:E.
  { injection H as <-. left. eapply Hval; eauto. }
  destruct (existsb (String.eqb modelId) Object_prototype_keys);
    [discriminate|].
  assert (Hfb : JStr (pattern_fallback (toLowerCase modelId) modelId) = JStr r
                -> In r CANONICAL \/ r = modelId).
  { intros Hf. injection Hf as <-.
    destruct (pattern_fallback_range (toLowerCase modelId) modelId); auto. }
  destruct (find_key (toLowerCase modelId)) as [key|]; [|auto].
  destruct (own_entry key MODEL_MAP) as [v|] eqn:E'.
  { injection H as <-. left. eapply Hval; eauto. }
  destruct (existsb (String.eqb key) Object_prototype_keys);
    [discriminate | auto].
Qed.

Lemma canonical_fixed :
  Forall (fun v => normalizeModel (Some v) = JStr v) CANONICAL.
Proof.
  unfold CANONICAL, MODEL_MAP. simpl List.map.
  repeat (constructor; [vm_compute; reflexivity|]). constructor.
Qed.

(** [normalizeModel] on an identifier without [/]. *)
Lemma normalizeModel_plain (m : string) :
  m <> "" -> ~ has_char "/" m ->
  normalizeModel (Some m) = normalizeModelId m.
Proof.
  intros Hne Hs. unfold normalizeModel.
  apply String.eqb_neq in Hne. rewrite Hne.
  now rewrite includes_char_absent.
Qed.

(** The identifier [normalizeModel] looks up holds no [/]. *)
Lemma normalizeModel_looks_up (m : string) :
  m <> "" ->
  exists modelId,
    ~ has_char "/" modelId /\ normalizeModel (Some m) = normalizeModelId modelId.
Proof.
  intros Hne. unfold normalizeModel.
  apply String.eqb_neq in Hne. rewrite Hne.
  destruct (includes "/" m) eqn:E.
  - eexists. split; [apply pop_split_clean | reflexivity].
  - exists m. split; [|reflexivity].
    intros H. apply has_char_includes in H. congruence.
Qed.

(** X1.  Normalization is idempotent: a non-empty name that
    [normalizeModel] returns is returned unchanged when normalized again. *)
Theorem normalizeModel_idempotent (model : option string) (r : string) :
  normalizeModel model = JStr r -> r <> "" ->
  normalizeModel (Some r) = JStr r.
Proof.
  intros H Hr.
  assert (Hdefault : normalizeModel (Some "gpt-5.1") = JStr "gpt-5.1")
    by reflexivity.
  destruct model as [m|]; [|injection H as <-; exact Hdefault].
  destruct (String.eqb_spec m "") as [->|Hm];
    [injection H as <-; exact Hdefault|].
  destruct (normalizeModel_looks_up m Hm) as (modelId & Hclean & E).
  rewrite E in H.
  destruct (normalizeModelId_range _ _ H) as [Hin | ->].
  - exact (proj1 (Forall_forall _ _) canonical_fixed r Hin).
  - now rewrite normalizeModel_plain.
Qed.

Lemma normalizeModel_idempotent_witness :
  normalizeModel (Some "gpt-5.1-codex-mini") = JStr "gpt-5.1-codex-mini".
Proof.
  apply (normalizeModel_idempotent (Some "openai/GPT-5-Codex-Mini-High")).
  - reflexivity.
  - discriminate.
Defined.

(** [normalizeModel] on a prefixed identifier. *)
Lemma normalizeModel_stripped (p s : string) :
  ~ has_char "/" s ->
  normalizeModel (Some (p ++ "/" ++ s)) = normalizeModelId (s).
Proof.
  intros Hs. unfold normalizeModel.
  assert (E : String.eqb (p ++ "/" ++ s) "" = false).
  { apply String.eqb_neq. destruct p; discriminate. }
  rewrite E, strip_prefix by assumption.
  simpl (p ++ "/" ++ s). now rewrite includes_char_app.
Qed.

Lemma keys_mention_family (k : string) :
  In k (List.map fst MODEL_MAP) -> mentions_family k = true.
Proof.
  assert (H : forallb mentions_family (List.map fst MODEL_MAP) = true)
    by (vm_compute; reflexivity).
  intros Hin. exact (proj1 (forallb_forall _ _) H k Hin).
Qed.

Lemma own_entry_key (k v : string) :
  own_entry k MODEL_MAP = Some v -> In k (List.map fst MODEL_MAP).
Proof.
  intros H. apply own_entry_In in H. apply (in_map fst) in H. exact H.
Qed.

(** An identifier that names no model family misses every pattern. *)
Lemma pattern_fallback_miss (lower modelId : string) :
  includes "gpt" lower = false ->
  includes "codex-mini-latest" lower = false ->
  pattern_fallback lower modelId = modelId.
Proof.
  intros Hg Hc. unfold pattern_fallback.
  repeat match goal with
         | |- context [includes ?pat lower] =>
             let E := fresh "E" in
             destruct (includes pat lower) eqn:E;
             [ exfalso;
               first
                 [ assert (includes "gpt" lower = true)
                     by (apply (includes_trans "gpt" pat);
                         [vm_compute; reflexivity | exact E]);
                   congruence
                 | assert (includes "codex-mini-latest" lower = true)
                     by (apply (includes_trans "codex-mini-latest" pat);
                         [vm_compute; reflexivity | exact E]);
                   congruence ]
             | ]
         end.
  reflexivity.
Qed.

(** X2.  Unknown models pass through: an identifier that mentions neither
    [gpt] nor [codex-mini-latest] in any letter case, and is not the name of
    a member of [Object.prototype], is returned as it is, with or without a
    provider prefix. *)
Theorem unknown_model_passes_through (p m : string) :
  m <> "" -> ~ has_char "/" m ->
  ~ occurs_in "gpt" (toLowerCase m) ->
  ~ occurs_in "codex-mini-latest" (toLowerCase m) ->
  ~ In m Object_prototype_keys ->
  normalizeModel (Some m) = JStr m
  /\ normalizeModel (Some (p ++ "/" ++ m)) = JStr m.
Proof.
  intros Hne Hs Hg Hc Hproto.
  assert (Hg' : includes "gpt" (toLowerCase m) = false).
  { destruct (includes "gpt" (toLowerCase m)) eqn:E; [|reflexivity].
    apply includes_iff in E. contradiction. }
  assert (Hc' : includes "codex-mini-latest" (toLowerCase m) = false).
  { destruct (includes "codex-mini-latest" (toLowerCase m)) eqn:E;
      [|reflexivity].
    apply includes_iff in E. contradiction. }
  assert (Hfam : forall k, toLowerCase k = toLowerCase m ->
                           mentions_family k = false).
  { intros k Hk. unfold mentions_family. now rewrite Hk, Hg', Hc'. }
  assert (Hid : normalizeModelId m = JStr m).
  { unfold normalizeModelId, MODEL_MAP_read.
    destruct (own_entry m MODEL_MAP) as [v|] eqn:E.
    { apply own_entry_key, keys_mention_family in E.
      rewrite Hfam in E by reflexivity. discriminate. }
    destruct (existsb (String.eqb m) Object_prototype_keys) eqn:Ep.
    { apply In_by_test in Ep. contradiction. }
    destruct (find_key (toLowerCase m)) as [key|] eqn:Ef.
    { unfold find_key in Ef. apply find_some in Ef. destruct Ef as [Hin Hk].
      apply String.eqb_eq in Hk. apply keys_mention_family in Hin.
      rewrite Hfam in Hin by assumption. discriminate. }
    now rewrite pattern_fallback_miss. }
  split.
  - now rewrite normalizeModel_plain.
  - now rewrite normalizeModel_stripped.
Qed.

Lemma unknown_model_passes_through_witness :
  normalizeModel (Some "totally-unknown-model") = JStr "totally-unknown-model"
  /\ normalizeModel (Some ("acme" ++ "/" ++ "totally-unknown-model"))
     = JStr "totally-unknown-model".
Proof.
  assert (Hno : forall pat s, includes pat s = false -> ~ occurs_in pat s).
  { intros pat s E H. apply includes_iff in H. congruence. }
  apply (unknown_model_passes_through "acme" "totally-unknown-model").
  - discriminate.
  - simpl. intros H. repeat (destruct H as [H|H]; [discriminate H|]). exact H.
  - apply Hno. vm_compute. reflexivity.
  - apply Hno. vm_compute. reflexivity.
  - simpl. intros H. repeat (destruct H as [H|H]; [discriminate H|]). exact H.
Defined.

Lemma toLowerCase_keeps_slash (s : string) :
  has_char "/" s -> has_char "/" (toLowerCase s).
Proof.
  induction s as [|a s IH]; simpl; [tauto|].
  intros [->|H]; [left; reflexivity | right; now apply IH].
Qed.

Lemma keys_are_lower (k : string) :
  In k (List.map fst MODEL_MAP) -> toLowerCase k = k.
Proof.
  assert (H : forallb (fun k => String.eqb (toLowerCase k) k)
                (List.map fst MODEL_MAP) = true)
    by (vm_compute; reflexivity).
  intros Hin. apply String.eqb_eq.
  exact (proj1 (forallb_forall _ _) H k Hin).
Qed.

Lemma keys_hold_no_slash (k : string) :
  In k (List.map fst MODEL_MAP) -> ~ has_char "/" k.
Proof.
  assert (H : forallb (fun k => negb (includes "/" k))
                (List.map fst MODEL_MAP) = true)
    by (vm_compute; reflexivity).
  intros Hin Hs. apply has_char_includes in Hs.
  pose proof (proj1 (forallb_forall _ _) H k Hin) as Hk. simpl in Hk.
  rewrite Hs in Hk. discriminate.
Qed.

(** In a table whose keys are lowercase, the scan for a lowercase key finds
    that key. *)
Lemma find_lower_key (lower v : string) (m : list (string * string)) :
  (forall k, In k (List.map fst m) -> toLowerCase k = k) ->
  own_entry lower m = Some v ->
  List.find (fun key => String.eqb (toLowerCase key) lower) (List.map fst m)
  = Some lower.
Proof.
  induction m as [|[k' v'] m IH]; simpl; intros Hlow H; [discriminate|].
  rewrite (Hlow k') by now left.
  destruct (String.eqb_spec lower k') as [->|Hne].
  - now rewrite String.eqb_refl.
  - assert (E : String.eqb k' lower = false)
      by (apply String.eqb_neq; congruence).
    rewrite E. apply IH; [|exact H]. intros k Hk. apply Hlow. now right.
Qed.

(** X3.  The table lookup ignores letter case: when the lowercased
    identifier is a key of [MODEL_MAP], [normalizeModel] returns that key's
    canonical name. *)
Theorem table_lookup_ignores_case (m v : string) :
  own_entry (toLowerCase m) MODEL_MAP = Some v ->
  normalizeModel (Some m) = JStr v.
Proof.
  intros H.
  assert (Hne : m <> "") by (intros ->; discriminate H).
  assert (Hs : ~ has_char "/" m).
  { intros Hs. apply toLowerCase_keeps_slash in Hs.
    exact (keys_hold_no_slash _ (own_entry_key _ _ H) Hs). }
  rewrite normalizeModel_plain by assumption.
  unfold normalizeModelId, MODEL_MAP_read.
  destruct (own_entry m MODEL_MAP) as [v'|] eqn:E.
  { rewrite <- (keys_are_lower _ (own_entry_key _ _ E)) in E. congruence. }
  destruct (existsb (String.eqb m) Object_prototype_keys) eqn:Ep.
  { apply In_by_test in Ep. simpl in Ep.
    repeat (destruct Ep as [<-|Ep]; [discriminate H|]). contradiction. }
  unfold find_key.
  rewrite (find_lower_key _ _ _ keys_are_lower H). now rewrite H.
Qed.

Lemma table_lookup_ignores_case_witness :
  normalizeModel (Some "GPT-5.2-Codex-XHigh") = JStr "gpt-5.2-codex".
Proof.
  apply (table_lookup_ignores_case "GPT-5.2-Codex-XHigh" "gpt-5.2-codex").
  reflexivity.
Defined.

End NormalizeFacts.

(* ------------------------------------------------------------------ *)
(** ** Token decoding, loading and refresh *)

Section TokenLifecycle.

Context {P : Platform}.

Lemma split_on_length (c : ascii) (s : string) :
  List.length (split_on c s) = S (count_char c s).
Proof.
  induction s as [|a s IH]; simpl; [reflexivity|].
  destruct (Ascii.eqb a c); simpl.
  - now rewrite IH.
  - pose proof (split_on_nonempty c s) as Hne.
    destruct (split_on c s); [contradiction|]. exact IH.
Qed.

(** X4.  [decodeJWT] reads the middle segment only: for a token of three
    dot-free segments the result is the parse of the decoded second
    segment, whatever the header and the signature are. *)
Theorem decodeJWT_middle_segment (h p s : string) :
  ~ has_char "." h -> ~ has_char "." p -> ~ has_char "." s ->
  decodeJWT (JStr (h ++ "." ++ p ++ "." ++ s)) = JSON_parse (base64_utf8 p).
Proof.
  intros Hh Hp Hs. unfold decodeJWT.
  change (h ++ "." ++ p ++ "." ++ s) with (h ++ String "." (p ++ String "." s)).
  rewrite !split_on_app, !split_on_absent by assumption.
  reflexivity.
Qed.

(** X5.  [decodeJWT] gives [null] for every value that is not a string and
    for every string that does not hold exactly two dots. *)
Theorem decodeJWT_needs_three_segments (token : value) :
  (forall t, token = JStr t -> count_char "." t <> 2%nat) ->
  decodeJWT token = None.
Proof.
  intros H. destruct token; try reflexivity. unfold decodeJWT.
  rewrite split_on_length.
  specialize (H s eq_refl).
  destruct (Nat.eqb_spec (S (count_char "." s)) 3) as [E|E]; [|reflexivity].
  exfalso. apply H. now injection E.
Qed.

(** X6.  [getAccountId] succeeds only on a string token of three segments,
    and the identifier it returns is truthy (never the empty string). *)
Theorem getAccountId_ok (token id : value) :
  getAccountId token = Ok id ->
  truthy id = true /\ exists t, token = JStr t /\ count_char "." t = 2%nat.
Proof.
  unfold getAccountId. intros H.
  destruct (prop_opt (prop_opt (decodeJWT token) JWT_CLAIM_PATH)
              "chatgpt_account_id") as [v|] eqn:E; [|discriminate].
  destruct (truthy v) eqn:Ev; [|discriminate]. injection H as <-.
  split; [exact Ev|].
  destruct token as [| | |t| | |];
    try (simpl in E; discriminate E).
  exists t. split; [reflexivity|].
  destruct (Nat.eq_dec (count_char "." t) 2) as [|Hn]; [assumption|].
  rewrite (decodeJWT_needs_three_segments (JStr t)) in E.
  - discriminate E.
  - intros t' Ht. injection Ht as <-. exact Hn.
Qed.

(** X7.  A token without a (truthy) [exp] claim loads with expiry 0, so
    that a refresh is due at once, at any time of the clock from 0 on. *)
Theorem loadTokens_without_exp_is_due (accessToken refreshToken : string)
  (state : TokenState) (now : Z) :
  loadTokens accessToken refreshToken = Ok state ->
  truthy_opt (prop_opt (decodeJWT (JStr accessToken)) "exp") = false ->
  0 <= now ->
  expires state = Num 0 /\ shouldRefreshToken now state = true.
Proof.
  unfold loadTokens. intros H Hexp Hnow.
  destruct (prop_opt (decodeJWT (JStr accessToken)) "exp") as [e|];
    simpl in Hexp; try rewrite Hexp in H;
    (destruct (getAccountId (JStr accessToken)) as [id|]; [|discriminate]);
    injection H as <-; unfold shouldRefreshToken; simpl;
    (split; [reflexivity | apply Z.ltb_lt; lia]).
Qed.

(** X8.  A numeric [exp] claim is read as seconds: the state loads with
    expiry [exp * 1000] ms, and a refresh is due exactly from 60 seconds
    before that instant. *)
Theorem loadTokens_exp_in_seconds (accessToken refreshToken : string)
  (state : TokenState) (e now : Z) :
  loadTokens accessToken refreshToken = Ok state ->
  prop_opt (decodeJWT (JStr accessToken)) "exp" = Some (JNum e) ->
  expires state = Num (e * 1000)
  /\ (shouldRefreshToken now state = true <-> e * 1000 - 60000 < now).
Proof.
  unfold loadTokens. intros H Hexp. rewrite Hexp in H.
  destruct (getAccountId (JStr accessToken)) as [id|]; [|discriminate].
  injection H as <-. unfold shouldRefreshToken. simpl.
  destruct (Z.eqb_spec e 0) as [->|Hne]; simpl;
    (split; [reflexivity | apply Z.ltb_lt]).
Qed.

(** X9.  [refreshAccessToken] reports success only for a 2xx reply whose
    JSON holds truthy [access_token] and [refresh_token] and a numeric
    [expires_in]; the new expiry is the clock plus [expires_in] seconds. *)
Theorem refreshAccessToken_success (now : Z) (reply : outcome Response)
  (access refresh : value) (expires_at : number) :
  refreshAccessToken now reply = success access refresh expires_at ->
  exists response j n,
    reply = Ok response /\ ok response = true /\ json response = Ok j
    /\ prop_opt (Some j) "access_token" = Some access
    /\ prop_opt (Some j) "refresh_token" = Some refresh
    /\ prop_opt (Some j) "expires_in" = Some (JNum n)
    /\ truthy access = true /\ truthy refresh = true
    /\ expires_at = Num (now + n * 1000).
Proof.
  unfold refreshAccessToken. intros H.
  destruct reply as [response|]; [|discriminate].
  destruct (ok response) eqn:Eok; [|discriminate].
  simpl negb in H. cbv iota in H.
  destruct (json response) as [j|] eqn:Ej; [|discriminate].
  destruct (prop_opt (Some j) "access_token") as [a|] eqn:Ea;
    destruct (prop_opt (Some j) "refresh_token") as [r|] eqn:Er;
    destruct (prop_opt (Some j) "expires_in") as [[| |n| | | |]|] eqn:En;
    try discriminate.
  destruct (truthy a) eqn:Ta; [|discriminate].
  destruct (truthy r) eqn:Tr; [|discriminate].
  simpl in H. injection H as <- <- <-.
  exists response, j, n. repeat split; assumption.
Qed.

(** X10.  [ensureValidToken] never changes the relay settings of the state,
    whatever its outcome, and in relay mode it never changes the refresh
    token. *)
Theorem ensureValidToken_keeps_mode (w : TokenWorld) (state : TokenState) :
  let state' := snd (ensureValidToken w state) in
  relayUrl state' = relayUrl state
  /\ relayKey state' = relayKey state
  /\ relay_mode state' = relay_mode state
  /\ (relay_mode state = true -> refreshToken state' = refreshToken state).
Proof.
  cbv zeta.
  assert (Hrelay : forall reply,
             let s' := snd (fetchFromRelay reply state) in
             relayUrl s' = relayUrl state /\ relayKey s' = relayKey state
             /\ refreshToken s' = refreshToken state).
  { intros reply. unfold fetchFromRelay.
    destruct reply as [res|]; [|simpl; auto].
    destruct (negb (ok res)); [simpl; auto|].
    destruct (json res) as [j|]; [|simpl; auto].
    destruct (prop j "access_token") as [[a|]|];
      destruct (prop j "expires_at") as [[[]|]|]; simpl; auto.
    destruct (negb (truthy a)); [simpl; auto|].
    destruct (getAccountId a); simpl; auto. }
  assert (Hmode : forall s', relayUrl s' = relayUrl state ->
                             relay_mode s' = relay_mode state).
  { intros s' E. unfold relay_mode. now rewrite E. }
  unfold ensureValidToken.
  destruct (negb (shouldRefreshToken (now w) state)); [simpl; auto|].
  destruct (relay_mode state) eqn:Em.
  - destruct (Hrelay (relay_reply w)) as (H1 & H2 & H3).
    repeat split; auto; rewrite (Hmode _ H1); exact Em.
  - destruct (refreshAccessToken _ _) as [a r e|].
    + destruct (getAccountId a); simpl; repeat split; auto;
        try discriminate; rewrite Hmode by reflexivity; exact Em.
    + simpl. repeat split; auto; discriminate.
Qed.

(** X11.  The relay takes precedence and the modes do not mix: in relay
    mode the outcome does not depend on what the auth server would answer,
    and outside relay mode it does not depend on the relay. *)
Theorem ensureValidToken_one_source (w w' : TokenWorld) (state : TokenState) :
  now w = now w' ->
  (if relay_mode state
   then relay_reply w = relay_reply w'
   else auth_reply w = auth_reply w' /\ now_refreshed w = now_refreshed w') ->
  ensureValidToken w state = ensureValidToken w' state.
Proof.
  intros Hnow H. unfold ensureValidToken. rewrite Hnow.
  destruct (negb (shouldRefreshToken (now w') state)); [reflexivity|].
  destruct (relay_mode state).
  - now rewrite H.
  - destruct H as [-> ->]. reflexivity.
Qed.

(** X12.  When [ensureValidToken] throws, either the state is untouched, or
    the access token has been replaced by one from which no account
    identifier can be derived while the stored account identifier is still
    the old one. *)
Theorem ensureValidToken_failure (w : TokenWorld) (state state' : TokenState)
  (e : string) :
  ensureValidToken w state = (Throw e, state') ->
  state' = state
  \/ (getAccountId (accessToken state') = Throw e
      /\ accountId state' = accountId state).
Proof.
  unfold ensureValidToken. intros H.
  destruct (negb (shouldRefreshToken (now w) state)); [discriminate|].
  destruct (relay_mode state).
  - unfold fetchFromRelay in H.
    destruct (relay_reply w) as [res|]; [|injection H as <- <-; now left].
    destruct (negb (ok res)); [injection H as <- <-; now left|].
    destruct (json res) as [j|]; [|injection H as <- <-; now left].
    destruct (prop j "access_token") as [[a|]|];
      destruct (prop j "expires_at") as [[[]|]|];
      try (injection H as <- <-; now left).
    destruct (negb (truthy a)); [injection H as <- <-; now left|].
    destruct (getAccountId a) as [id|] eqn:E; [discriminate|].
    injection H as <- <-. right. simpl. auto.
  - destruct (refreshAccessToken _ _) as [a r ex|];
      [|injection H as <- <-; now left].
    destruct (getAccountId a) as [id|] eqn:E; [discriminate|].
    injection H as <- <-. right. simpl. auto.
Qed.

(** X13.  The state [createOAuthProxy] starts from is coherent, holds the
    seed tokens as given, and is in relay mode exactly when a non-empty
    relay URL was supplied, in which case it carries the relay key. *)
Theorem createOAuthProxy_state_ok (options : OAuthProxyOptions)
  (state : TokenState) :
  createOAuthProxy_state options = Ok state ->
  coherent state
  /\ accessToken state = JStr (opt_accessToken options)
  /\ refreshToken state = JStr (opt_refreshToken options)
  /\ (relay_mode state = true
      <-> exists u, opt_relayUrl options = Some u /\ u <> "")
  /\ (relay_mode state = true ->
      relayUrl state = opt_relayUrl options
      /\ relayKey state = opt_relayKey options).
Proof.
  unfold createOAuthProxy_state. intros H.
  destruct (loadTokens _ _) as [st|] eqn:El; [|discriminate].
  pose proof (loadTokens_coherent _ _ _ El) as Hc.
  unfold loadTokens in El.
  destruct (getAccountId (JStr (opt_accessToken options))) as [id|];
    [|discriminate].
  injection El as <-. unfold coherent in *. simpl in *.
  destruct (opt_relayUrl options) as [u|].
  - destruct (String.eqb u "") eqn:Eu; simpl in H;
      injection H as <-; unfold relay_mode; simpl; try rewrite Eu;
      repeat split; auto; try discriminate.
    + intros (u' & Hu' & Hne). injection Hu' as <-.
      apply String.eqb_eq in Eu. contradiction.
    + intros _. exists u. apply String.eqb_neq in Eu. auto.
  - injection H as <-. unfold relay_mode. simpl.
    repeat split; auto; try discriminate.
    intros (u' & Hu' & _). discriminate.
Qed.

End TokenLifecycle.

Section TokenLifecycleExamples.

(** A literal holds no occurrence of a character. *)
Ltac no_char :=
  let H := fresh "H" in
  simpl; intros H; repeat (destruct H as [H|H]; [discriminate H|]); exact H.

Lemma decodeJWT_middle_segment_witness :
  decodeJWT (P := reference)
    (JStr ("any-header" ++ "." ++ "eyJleHAiOjE4MDAwMDAwMDB9" ++ "." ++ "unchecked"))
  = Some (JObj [("exp", JNum 1800000000)]).
Proof.
  rewrite (decodeJWT_middle_segment (P := reference)
             "any-header" "eyJleHAiOjE4MDAwMDAwMDB9" "unchecked");
    [reflexivity | no_char | no_char | no_char].
Defined.

Lemma decodeJWT_needs_three_segments_witness :
  decodeJWT (P := reference) (JStr "header.payload") = None
  /\ decodeJWT (P := reference) (JNum 7) = None.
Proof.
  split; apply (decodeJWT_needs_three_segments (P := reference));
    intros t Ht; [injection Ht as <-; simpl | ]; discriminate.
Defined.

Lemma getAccountId_ok_witness :
  truthy (JStr "acct_1") = true
  /\ exists t, JStr jwt_acct_1 = JStr t /\ count_char "." t = 2%nat.
Proof.
  apply (getAccountId_ok (P := reference) (JStr jwt_acct_1) (JStr "acct_1")).
  reflexivity.
Defined.

Lemma loadTokens_without_exp_is_due_witness :
  exists state,
    loadTokens (P := reference) jwt_no_exp "refresh-1" = Ok state
    /\ expires state = Num 0
    /\ shouldRefreshToken 0 state = true.
Proof.
  eexists. split; [reflexivity|].
  apply (loadTokens_without_exp_is_due (P := reference)
           jwt_no_exp "refresh-1" _ 0);
    [reflexivity | reflexivity | lia].
Defined.

Lemma loadTokens_exp_in_seconds_witness :
  expires loaded_state = Num (1700000000 * 1000)
  /\ (shouldRefreshToken 1699999940001 loaded_state = true
      <-> 1700000000 * 1000 - 60000 < 1699999940001).
Proof.
  apply (loadTokens_exp_in_seconds (P := reference)
           jwt_acct_1 "refresh-1" loaded_state 1700000000 1699999940001);
    reflexivity.
Defined.

Lemma refreshAccessToken_success_witness :
  exists response j n,
    reply_200 (auth_json jwt_acct_2) = Ok response
    /\ ok response = true
    /\ json (P := reference) response = Ok j
    /\ prop_opt (Some j) "access_token" = Some (JStr jwt_acct_2)
    /\ prop_opt (Some j) "refresh_token" = Some (JStr "refresh-2")
    /\ prop_opt (Some j) "expires_in" = Some (JNum n)
    /\ truthy (JStr jwt_acct_2) = true
    /\ truthy (JStr "refresh-2") = true
    /\ Num 1750003600500 = Num (1750000000500 + n * 1000).
Proof.
  apply (refreshAccessToken_success (P := reference) 1750000000500
           (reply_200 (auth_json jwt_acct_2))
           (JStr jwt_acct_2) (JStr "refresh-2") (Num 1750003600500)).
  reflexivity.
Defined.

(** In relay mode a broken auth server changes nothing. *)
Lemma ensureValidToken_one_source_witness :
  ensureValidToken (P := reference) (world_answering jwt_acct_2) relay_state
  = ensureValidToken (P := reference)
      {| now := 1750000000000;
         relay_reply := reply_200 (relay_json jwt_acct_2);
         auth_reply := Throw "offline";
         now_refreshed := 0 |}
      relay_state.
Proof.
  apply (ensureValidToken_one_source (P := reference)); reflexivity.
Defined.

Lemma ensureValidToken_failure_witness :
  let state' :=
    snd (ensureValidToken (P := reference) (world_answering jwt_no_account)
           loaded_state) in
  state' = loaded_state
  \/ (getAccountId (P := reference) (accessToken state')
      = Throw "Failed to extract chatgpt_account_id from access token"
      /\ accountId state' = accountId loaded_state).
Proof.
  cbv zeta.
  apply (ensureValidToken_failure (P := reference)
           (world_answering jwt_no_account) loaded_state).
  reflexivity.
Defined.

Lemma createOAuthProxy_state_ok_witness :
  let options := {| opt_accessToken := jwt_acct_1;
                    opt_refreshToken := "";
                    opt_relayUrl := Some "https://relay.example/token";
                    opt_relayKey := Some "key" |} in
  coherent (P := reference) relay_state
  /\ accessToken relay_state = JStr (opt_accessToken options)
  /\ refreshToken relay_state = JStr (opt_refreshToken options)
  /\ (relay_mode relay_state = true
      <-> exists u, opt_relayUrl options = Some u /\ u <> "")
  /\ (relay_mode relay_state = true ->
      relayUrl relay_state = opt_relayUrl options
      /\ relayKey relay_state = opt_relayKey options).
Proof.
  cbv zeta.
  apply (createOAuthProxy_state_ok (P := reference)
           {| opt_accessToken := jwt_acct_1;
              opt_refreshToken := "";
              opt_relayUrl := Some "https://relay.example/token";
              opt_relayKey := Some "key" |} relay_state).
  reflexivity.
Defined.

End TokenLifecycleExamples.

(* ------------------------------------------------------------------ *)
(** ** Request transformation, field by field *)

Section TransformFields.

Context {P : Platform}.

Lemma filter_items_throws (input : list value) :
  (exists e, filter_items input = Throw e) <-> In JNull input.
Proof.
  induction input as [|item input IH]; simpl.
  - split; [intros [e H]; discriminate | tauto].
  - split.
    + intros [e H]. destruct item; simpl in H; try (now left);
        right; apply IH;
        destruct (filter_items input); try discriminate; eauto.
    + intros [->|H]; [simpl; eauto|].
      apply IH in H. destruct H as [e H].
      destruct item; simpl; eauto; rewrite H; simpl; eauto.
Qed.

(** X14.  [filterInput] throws exactly when the input holds a [null]
    item; every other input, whatever the shape of its items, is
    filtered. *)
Theorem filterInput_throws_on_null (input : list value) :
  (exists e, filterInput input = Throw e) <-> In JNull input.
Proof.
  rewrite <- filter_items_throws. unfold filterInput.
  destruct (filter_items input); simpl; split; intros [e H];
    try discriminate; eauto.
Qed.

Lemma filter_items_total (input : list value) :
  ~ In JNull input -> filter_items input = Ok (survivors input).
Proof.
  intros Hn. destruct (filter_items input) as [kept|e] eqn:E.
  - now rewrite (filter_items_survivors _ _ E).
  - exfalso. apply Hn. apply filter_items_throws. eauto.
Qed.

Lemma strip_id_reference (item : value) :
  is_reference (strip_id item) = is_reference item.
Proof.
  unfold strip_id. destruct item; try reflexivity.
  destruct (truthy_opt (get "id" fields)); [|reflexivity].
  simpl. now rewrite get_delete_other by discriminate.
Qed.

Lemma strip_id_twice (item : value) : strip_id (strip_id item) = strip_id item.
Proof.
  unfold strip_id. destruct item; try reflexivity.
  destruct (truthy_opt (get "id" fields)) eqn:E.
  - now rewrite get_delete_same.
  - now rewrite E.
Qed.

Lemma strip_id_not_null (item : value) : item <> JNull -> strip_id item <> JNull.
Proof.
  unfold strip_id. destruct item; try congruence.
  destruct (truthy_opt _); discriminate.
Qed.

Lemma survivors_stripped (items : list value) :
  survivors (List.map strip_id (survivors items))
  = List.map strip_id (survivors items).
Proof.
  unfold survivors. induction items as [|item items IH]; simpl; [reflexivity|].
  destruct (is_reference item) eqn:E; simpl; [exact IH|].
  now rewrite strip_id_reference, E, IH.
Qed.

(** X15.  What [filterInput] returns holds no reference item, and filtering
    it again returns it unchanged. *)
Theorem filterInput_idempotent (input out : list value) :
  filterInput input = Ok out ->
  Forall (fun item => is_reference item = false) out
  /\ filterInput out = Ok out.
Proof.
  intros H. pose proof (filterInput_survivors _ _ H) as ->.
  assert (Hnn : ~ In JNull input).
  { intros Hin. apply filterInput_throws_on_null in Hin.
    destruct Hin as [e He]. congruence. }
  split.
  - apply Forall_forall. intros item Hin.
    apply in_map_iff in Hin. destruct Hin as (x & <- & Hx).
    apply filter_In in Hx. destruct Hx as [_ Hx].
    rewrite strip_id_reference. now destruct (is_reference x).
  - unfold filterInput. rewrite filter_items_total.
    + simpl. rewrite survivors_stripped, map_map.
      f_equal. apply map_ext. intros; apply strip_id_twice.
    + intros Hin. apply in_map_iff in Hin. destruct Hin as (x & Hx & Hin).
      apply filter_In in Hin. destruct Hin as [Hin _].
      apply (strip_id_not_null x); [|exact Hx]. intros ->. contradiction.
Qed.

(** The fields a later pass leaves alone, read back from the output. *)
Lemma after_reasoning (b2 b3 : object) (k : string) :
  ensure_include b2 = Ok b3 ->
  k <> "include" -> k <> "max_output_tokens" -> k <> "max_completion_tokens" ->
  get k (delete "max_completion_tokens" (delete "max_output_tokens" b3))
  = get k b2.
Proof.
  intros H3 H1 H2 H4. rewrite !get_delete_other by assumption.
  now apply (ensure_include_other _ _ _ H3).
Qed.

Lemma before_reasoning (body b1 : object) (model : value) (k : string) :
  strip_input
    (set "stream" (JBool true)
       (set "store" (JBool false) (set "model" model body))) = Ok b1 ->
  k <> "model" -> k <> "store" -> k <> "stream" -> k <> "input" ->
  get k b1 = get k body.
Proof.
  intros H1 Ha Hb Hc Hd. rewrite (strip_input_other _ _ _ H1) by assumption.
  now apply gets_before_input.
Qed.

(** X16.  The reasoning defaults are applied field by field: an absent or
    falsy [reasoning] becomes [{effort: "medium", summary: "auto"}]; in a
    [reasoning] object a truthy [effort] or [summary] is kept, a missing or
    falsy one gets its default, and every other field of the object is
    kept. *)
Theorem reasoning_defaults (body out : object) (wasStreaming : bool) :
  transformRequestBody body = Ok (out, wasStreaming) ->
  (truthy_opt (get "reasoning" body) = false ->
     get "reasoning" out
     = Some (JObj [("effort", JStr "medium"); ("summary", JStr "auto")]))
  /\ (forall r, get "reasoning" body = Some (JObj r) ->
        exists r',
          get "reasoning" out = Some (JObj r')
          /\ get "effort" r'
             = (if truthy_opt (get "effort" r) then get "effort" r
                else Some (JStr "medium"))
          /\ get "summary" r'
             = (if truthy_opt (get "summary" r) then get "summary" r
                else Some (JStr "auto"))
          /\ (forall k, k <> "effort" -> k <> "summary" ->
                get k r' = get k r)).
Proof.
  intros H. apply transform_passes in H.
  destruct H as (model & b1 & b2 & b3 & _ & H1 & H2 & H3 & -> & _).
  rewrite (after_reasoning _ _ _ H3) by discriminate.
  pose proof (before_reasoning _ _ _ "reasoning" H1) as Hr.
  unfold ensure_reasoning in H2. rewrite Hr in H2 by discriminate. clear Hr.
  split.
  - intros Hf. destruct (get "reasoning" body) as [v|].
    + destruct v; simpl in Hf; try discriminate; simpl in H2;
        try rewrite Hf in H2; injection H2 as <-; apply get_set_same.
    + injection H2 as <-. apply get_set_same.
  - intros r Hr. rewrite Hr in H2.
    remember (if negb (truthy_opt (get "effort" r))
              then set "effort" (JStr "medium") r else r) as r1 eqn:E1.
    assert (Hs1 : get "summary" r1 = get "summary" r).
    { subst r1. destruct (truthy_opt (get "effort" r)); simpl;
        [reflexivity | now rewrite get_set_other by discriminate]. }
    assert (He1 : get "effort" r1
                  = if truthy_opt (get "effort" r) then get "effort" r
                    else Some (JStr "medium")).
    { subst r1. destruct (truthy_opt (get "effort" r)); simpl;
        [reflexivity | apply get_set_same]. }
    assert (Ho1 : forall k, k <> "effort" -> get k r1 = get k r).
    { intros k Hk. subst r1. destruct (truthy_opt (get "effort" r)); simpl;
        [reflexivity | now rewrite get_set_other]. }
    clear E1. rewrite Hs1 in H2.
    destruct (truthy_opt (get "summary" r)); simpl in H2; injection H2 as <-;
      eexists; (split; [apply get_set_same|]).
    + repeat split; auto.
    + repeat split.
      * now rewrite get_set_other by discriminate.
      * apply get_set_same.
      * intros k Hk1 Hk2. rewrite get_set_other by assumption. auto.
Qed.

Lemma has_entry (lit : string) (items : list value) :
  existsb (fun x => is_str lit (Some x)) items = true <-> In (JStr lit) items.
Proof.
  rewrite existsb_exists. split.
  - intros (x & Hin & Hx). apply is_str_true in Hx. now injection Hx as ->.
  - intros Hin. exists (JStr lit). split; [assumption|].
    simpl. apply String.eqb_refl.
Qed.

(** X17.  After the transformation [include] requests the encrypted
    reasoning content exactly as needed: an absent or [null] list becomes
    the one-entry list; a list that already holds the entry is left as it
    is; any other list gets the entry appended after its own entries. *)
Theorem include_encrypted_content (body out : object) (wasStreaming : bool) :
  transformRequestBody body = Ok (out, wasStreaming) ->
  (get "include" body = None \/ get "include" body = Some JNull ->
     get "include" out = Some (JArr [JStr ENCRYPTED]))
  /\ (forall items, get "include" body = Some (JArr items) ->
        (In (JStr ENCRYPTED) items -> get "include" out = Some (JArr items))
        /\ (~ In (JStr ENCRYPTED) items ->
            get "include" out = Some (JArr (items ++ [JStr ENCRYPTED])))).
Proof.
  intros H. apply transform_passes in H.
  destruct H as (model & b1 & b2 & b3 & _ & H1 & H2 & H3 & -> & _).
  rewrite !get_delete_other by discriminate.
  assert (Hi : get "include" b2 = get "include" body).
  { rewrite (ensure_reasoning_other _ _ _ H2) by discriminate.
    apply (before_reasoning _ _ _ _ H1); discriminate. }
  unfold ensure_include in H3. rewrite Hi in H3. split.
  - intros [E|E]; rewrite E in H3; injection H3 as <-; apply get_set_same.
  - intros items E. rewrite E in H3.
    destruct (existsb (fun x => is_str ENCRYPTED (Some x)) items) eqn:Ex;
      injection H3 as <-; split; intros Hin.
    + now rewrite Hi.
    + apply has_entry in Ex. contradiction.
    + apply has_entry in Hin. congruence.
    + apply get_set_same.
Qed.

(** X18.  The legacy limits never reach the backend and the model is always
    a normalized one: the output holds neither [max_output_tokens] nor
    [max_completion_tokens]; its [model] is [normalizeModel] of the input's
    string, and the default model when the input names none. *)
Theorem legacy_limits_removed (body out : object) (wasStreaming : bool) :
  transformRequestBody body = Ok (out, wasStreaming) ->
  get "max_output_tokens" out = None
  /\ get "max_completion_tokens" out = None
  /\ (forall m, get "model" body = Some (JStr m) ->
        get "model" out = Some (normalizeModel (Some m)))
  /\ (get "model" body = None -> get "model" out = Some (JStr "gpt-5.1")).
Proof.
  intros H. apply transform_passes in H.
  destruct H as (model & b1 & b2 & b3 & Hm & H1 & H2 & H3 & -> & _).
  assert (Hmodel : get "model"
                     (delete "max_completion_tokens"
                        (delete "max_output_tokens" b3)) = Some model).
  { rewrite (after_reasoning _ _ _ H3) by discriminate.
    rewrite (ensure_reasoning_other _ _ _ H2) by discriminate.
    rewrite (strip_input_other _ _ _ H1) by discriminate.
    rewrite !get_set_other by discriminate. apply get_set_same. }
  repeat split.
  - rewrite get_delete_other by discriminate. apply get_delete_same.
  - apply get_delete_same.
  - intros m E. rewrite E in Hm. unfold normalizeModel_of in Hm.
    injection Hm as <-. exact Hmodel.
  - intros E. rewrite E in Hm. unfold normalizeModel_of in Hm.
    injection Hm as <-. exact Hmodel.
Qed.

End TransformFields.

Section TransformFieldsExamples.

Lemma filterInput_idempotent_witness :
  let out := [ JObj [("type", JStr "message"); ("text", JStr "x")];
               JStr "free text" ] in
  Forall (fun item => is_reference item = false) out
  /\ filterInput out = Ok out.
Proof.
  cbv zeta.
  apply (filterInput_idempotent
           [ JObj [("type", JStr "item_reference"); ("id", JStr "a")];
             JObj [("type", JStr "message"); ("id", JStr "b");
                   ("text", JStr "x")];
             JStr "free text" ]).
  reflexivity.
Defined.

(** The example of the specification: [reasoning: {effort: "high"}] comes
    out as [{effort: "high", summary: "auto"}]. *)
Lemma reasoning_defaults_witness :
  exists out wasStreaming,
    transformRequestBody (P := reference)
      [("reasoning", JObj [("effort", JStr "high")])] = Ok (out, wasStreaming)
    /\ get "reasoning" out
       = Some (JObj [("effort", JStr "high"); ("summary", JStr "auto")]).
Proof.
  destruct (transform_total (P := reference)
              [("reasoning", JObj [("effort", JStr "high")])] eq_refl)
    as (out & wasStreaming & E).
  exists out, wasStreaming. split; [exact E|].
  destruct (reasoning_defaults (P := reference) _ _ _ E) as [_ H].
  destruct (H [("effort", JStr "high")] eq_refl) as (r' & Hr & _).
  rewrite Hr. apply transform_passes in E.
  destruct E as (model & b1 & b2 & b3 & Hm & H1 & H2 & H3 & -> & _).
  vm_compute in Hm. injection Hm as <-.
  vm_compute in H1. injection H1 as <-.
  vm_compute in H2. injection H2 as <-.
  vm_compute in H3. injection H3 as <-.
  vm_compute in Hr. exact (eq_sym Hr).
Defined.

Lemma include_encrypted_content_witness :
  exists out wasStreaming,
    transformRequestBody (P := reference)
      [("include", JArr [JStr "file_search_call.results"])]
      = Ok (out, wasStreaming)
    /\ get "include" out
       = Some (JArr [JStr "file_search_call.results"; JStr ENCRYPTED]).
Proof.
  destruct (transform_total (P := reference)
              [("include", JArr [JStr "file_search_call.results"])] eq_refl)
    as (out & wasStreaming & E).
  exists out, wasStreaming. split; [exact E|].
  destruct (include_encrypted_content (P := reference) _ _ _ E) as [_ H].
  destruct (H [JStr "file_search_call.results"] eq_refl) as [_ Happend].
  apply Happend. simpl. intros [Hin|[]]. discriminate Hin.
Defined.

Lemma legacy_limits_removed_witness :
  exists out wasStreaming,
    transformRequestBody (P := reference)
      [ ("model", JStr "openai/gpt-5-codex");
        ("max_output_tokens", JNum 4096);
        ("max_completion_tokens", JNum 4096) ] = Ok (out, wasStreaming)
    /\ get "max_output_tokens" out = None
    /\ get "max_completion_tokens" out = None
    /\ get "model" out = Some (JStr "gpt-5.1-codex").
Proof.
  destruct (transform_total (P := reference)
              [ ("model", JStr "openai/gpt-5-codex");
                ("max_output_tokens", JNum 4096);
                ("max_completion_tokens", JNum 4096) ] eq_refl)
    as (out & wasStreaming & E).
  exists out, wasStreaming. split; [exact E|].
  destruct (legacy_limits_removed (P := reference) _ _ _ E)
    as (H1 & H2 & H3 & _).
  split; [exact H1 | split; [exact H2 |]].
  exact (H3 "openai/gpt-5-codex" eq_refl).
Defined.

End TransformFieldsExamples.

(* ------------------------------------------------------------------ *)
(** ** Response adaptation, the other branches *)

Section ResponseBranches.

Context {P : Platform}.

(** X19.  An upstream error other than 404 is passed on as it is, status
    and body (the empty string when the body cannot be read), whether or
    not the client asked for a stream. *)
Theorem upstream_error_passthrough (up : Response) (wasStreaming : bool) :
  ok up = false -> status up <> 404 ->
  handleUpstreamResponse up wasStreaming
  = {| code := status up; headers := JSON_HEADERS;
       sent := text_or_empty up |}.
Proof.
  intros Hok H404. unfold handleUpstreamResponse.
  apply Z.eqb_neq in H404. now rewrite H404, Hok.
Qed.

(** X20.  The statuses the adapter can answer with: the upstream status
    itself; 429, only for an upstream 404; 200 and 502, only for an upstream
    2xx, and 502 only in buffering mode when there is no body or its read
    fails. *)
Theorem downstream_status (up : Response) (wasStreaming : bool) :
  let d := handleUpstreamResponse up wasStreaming in
  (ok up = false -> code d = status up \/ (status up = 404 /\ code d = 429))
  /\ (ok up = true ->
      code d = 200
      \/ (wasStreaming = false /\ code d = 502
          /\ (body up = None \/ exists chunks, body up = Some (chunks, false)))).
Proof.
  cbv zeta. unfold handleUpstreamResponse. split; intros Hok.
  - destruct (Z.eqb_spec (status up) 404) as [E|E].
    + simpl. destruct (isUsageLimitBody _); auto.
    + rewrite Hok. simpl. auto.
  - rewrite (ok_not_404 _ Hok), Hok. simpl.
    destruct wasStreaming; [now left|].
    unfold convertSseToJson.
    destruct (body up) as [[chunks []]|].
    + left. destruct (parseSseStream _) as [[]|]; reflexivity.
    + right. eauto.
    + right. auto.
Qed.

(** X21.  In passthrough mode the bytes sent are the upstream chunks in
    their order of arrival, nothing else, also when the upstream read
    fails after them: what was forwarded stays forwarded. *)
Theorem streaming_passthrough (up : Response) (chunks : list string)
  (ends_ok : bool) :
  ok up = true -> body up = Some (chunks, ends_ok) ->
  let d := handleUpstreamResponse up true in
  code d = 200
  /\ sent d = String.concat "" chunks
  /\ In ("Content-Type", "text/event-stream; charset=utf-8") (headers d).
Proof.
  intros Hok Hb. cbv zeta. unfold handleUpstreamResponse.
  rewrite (ok_not_404 _ Hok), Hok. simpl. rewrite Hb.
  repeat split. now left.
Qed.

(** X22.  In buffering mode a failed read of the upstream body is answered
    502, whatever has arrived before the failure, a complete terminal event
    included. *)
Theorem buffering_read_error (up : Response) (chunks : list string) :
  ok up = true -> body up = Some (chunks, false) ->
  handleUpstreamResponse up false
  = {| code := 502; headers := JSON_HEADERS;
       sent := error_body "Failed to read upstream response" |}.
Proof.
  intros Hok Hb. rewrite (buffering_dispatch _ Hok).
  unfold convertSseToJson. now rewrite Hb.
Qed.

Lemma terminal_event_needs_data (line : string) :
  startsWith "data: " line = false -> terminal_event line = None.
Proof.
  intros H. unfold terminal_event. now rewrite H.
Qed.

(** X23.  [parseSseStream] looks at [data: ] lines only: event names,
    comments, blank lines and any other line can be taken out of, or put
    into, the stream without a change of the result. *)
Theorem parseSseStream_reads_data_lines (lines : list string) :
  scan_lines lines = scan_lines (List.filter (startsWith "data: ") lines).
Proof.
  induction lines as [|line lines IH]; simpl; [reflexivity|].
  destruct (startsWith "data: " line) eqn:E; simpl.
  - now rewrite IH.
  - now rewrite (terminal_event_needs_data _ E).
Qed.

End ResponseBranches.

Section ResponseBranchesExamples.

Lemma upstream_error_passthrough_witness :
  handleUpstreamResponse (P := reference)
    {| status := 503; body := Some (["upstream "; "down"], true) |} true
  = {| code := 503; headers := JSON_HEADERS; sent := "upstream down" |}.
Proof.
  apply (upstream_error_passthrough (P := reference)
           {| status := 503; body := Some (["upstream "; "down"], true) |}).
  - reflexivity.
  - discriminate.
Defined.

(** Two chunks arrive, then the read fails: both are sent. *)
Lemma streaming_passthrough_witness :
  let d := handleUpstreamResponse (P := reference)
             {| status := 200;
                body := Some ([line_delta ++ nl; "data: {"], false) |} true in
  code d = 200
  /\ sent d = String.concat "" [line_delta ++ nl; "data: {"]
  /\ In ("Content-Type", "text/event-stream; charset=utf-8") (headers d).
Proof.
  cbv zeta.
  apply (streaming_passthrough (P := reference)
           {| status := 200;
              body := Some ([line_delta ++ nl; "data: {"], false) |}
           [line_delta ++ nl; "data: {"] false);
    reflexivity.
Defined.

(** The terminal event has arrived in full, the read fails afterwards. *)
Lemma buffering_read_error_witness :
  handleUpstreamResponse (P := reference)
    {| status := 200; body := Some ([line_done_r1 ++ nl], false) |} false
  = {| code := 502; headers := JSON_HEADERS;
       sent := error_body (P := reference)
                 "Failed to read upstream response" |}.
Proof.
  apply (buffering_read_error (P := reference)
           {| status := 200; body := Some ([line_done_r1 ++ nl], false) |}
           [line_done_r1 ++ nl]);
    reflexivity.
Defined.

End ResponseBranchesExamples.

(* ------------------------------------------------------------------ *)
(** ** The request handler *)

Section HandlerFacts.

Context {P : Platform}.

Lemma gate_passed (req : Request) :
  passes_gate req ->
  negb (is_str "POST" (option_map JStr (method req)))
  || negb (match url req with
           | Some u => startsWith "/v1/responses" u
           | None => false
           end) = false.
Proof.
  intros [Hm (rest & Hu)]. apply method_is_POST in Hm. rewrite Hm, Hu.
  assert (Hs : startsWith "/v1/responses" ("/v1/responses" ++ rest) = true)
    by (apply prefix_iff; eauto).
  now rewrite Hs.
Qed.

(** X24.  A body that is not JSON is answered 400 with
    [{"error": "Invalid JSON body"}] before the token is looked at: the
    token state is as it was and the backend is not called. *)
Theorem invalid_json_400 (w : World) (req : Request) (tokenState : TokenState)
  (rawBody : string) :
  passes_gate req -> readBody req = Ok rawBody -> JSON_parse rawBody = None ->
  handleRequest w req tokenState
  = {| events := [ReadBody;
                  Respond {| code := 400; headers := JSON_HEADERS;
                             sent := error_body "Invalid JSON body" |}];
       rejected := None; final_state := tokenState |}.
Proof.
  intros Hg Hr Hp. unfold handleRequest.
  now rewrite (gate_passed _ Hg), Hr, Hp.
Qed.

(** X25.  When the token cannot be refreshed the request is answered 401
    and goes no further: the body is not transformed and the backend is
    not called; the token state is the one the failed refresh left. *)
Theorem refresh_failure_401 (w : World) (req : Request)
  (tokenState tokenState' : TokenState) (rawBody e : string) (body : value) :
  passes_gate req -> readBody req = Ok rawBody ->
  JSON_parse rawBody = Some body ->
  ensureValidToken (token_world w) tokenState = (Throw e, tokenState') ->
  handleRequest w req tokenState
  = {| events :=
         [ReadBody; EnsureValidToken;
          Respond {| code := 401; headers := JSON_HEADERS;
                     sent := error_body
                               "OAuth token refresh failed. Re-authenticate." |}];
       rejected := None; final_state := tokenState' |}.
Proof.
  intros Hg Hr Hp He. unfold handleRequest.
  now rewrite (gate_passed _ Hg), Hr, Hp, He.
Qed.

(** X26.  The steps of a run are an initial stretch of: body read, token
    check, transformation, backend call, in that order and each at most
    once; the run then either sends exactly one response, which is its last
    event, or rejects having sent none. *)
Theorem handleRequest_steps (w : World) (req : Request)
  (tokenState : TokenState) :
  let run := handleRequest w req tokenState in
  exists n,
    (n <= 4)%nat
    /\ ((rejected run <> None /\ events run = firstn n STEPS)
        \/ (rejected run = None
            /\ exists d, events run = (firstn n STEPS ++ [Respond d])%list)).
Proof.
  cbv zeta. unfold handleRequest.
  destruct (_ || _).
  { exists 0%nat. split; [lia|]. right. simpl. eauto. }
  destruct (readBody req) as [rawBody|].
  2:{ exists 1%nat. split; [lia|]. left. simpl. split; congruence. }
  destruct (JSON_parse rawBody) as [body|].
  2:{ exists 1%nat. split; [lia|]. right. simpl. eauto. }
  destruct (ensureValidToken _ _) as [[[]|] st'].
  2:{ exists 2%nat. split; [lia|]. right. simpl. eauto. }
  destruct (transform_parsed body) as [[transformed ws]|].
  2:{ exists 3%nat. split; [lia|]. left. simpl. split; congruence. }
  exists 4%nat. split; [lia|]. right.
  destruct (backend_reply w); simpl; eauto.
Qed.


(** X28.  The server callback answers every request exactly once: when
    the handler resolves, with the response the handler sent, which is the
    last event of its run; when the handler rejects, with 500
    [{"error": "Internal proxy error"}]. *)
Theorem serve_always_answers (w : World) (req : Request)
  (tokenState : TokenState) :
  let run := handleRequest w req tokenState in
  exists d,
    serve w req tokenState = (Some d, final_state run)
    /\ (rejected run = None ->
        exists before, events run = (before ++ [Respond d])%list
                       /\ response_of before = None)
    /\ (rejected run <> None ->
        d = internal_error /\ response_of (events run) = None).
Proof.
  cbv zeta. unfold serve, handleRequest.
  destruct (_ || _).
  { eexists. simpl. split; [reflexivity|]. split; [|congruence].
    intros _. now exists []. }
  destruct (readBody req) as [rawBody|].
  2:{ eexists. simpl. split; [reflexivity|]. split; [discriminate|]. auto. }
  destruct (JSON_parse rawBody) as [body|].
  2:{ eexists. simpl. split; [reflexivity|]. split; [|congruence].
      intros _. now exists [ReadBody]. }
  destruct (ensureValidToken _ _) as [[[]|] st'].
  2:{ eexists. simpl. split; [reflexivity|]. split; [|congruence].
      intros _. now exists [ReadBody; EnsureValidToken]. }
  destruct (transform_parsed body) as [[transformed ws]|].
  2:{ eexists. simpl. split; [reflexivity|]. split; [discriminate|]. auto. }
  destruct (backend_reply w); eexists; simpl;
    (split; [reflexivity|]); (split; [|congruence]); intros _;
    now exists [ReadBody; EnsureValidToken; TransformRequestBody; FetchBackend].
Qed.

Lemma unusable_body_throws (body : value) :
  unusable_body body -> exists e, transform_parsed body = Throw e.
Proof.
  intros [->|(o & items & -> & Hi & Hn)]; [simpl; eauto|].
  unfold transform_parsed, transformRequestBody.
  destruct (normalizeModel_of (get "model" o)) as [model|]; [|simpl; eauto].
  simpl bind. unfold strip_input at 1.
  rewrite gets_before_input by discriminate. rewrite Hi.
  unfold filterInput.
  apply filter_items_throws in Hn. destruct Hn as [e ->]. simpl. eauto.
Qed.

(** X29.  A request whose JSON body is [null], or whose [input] holds a
    [null] item, is not rejected as a client error: the token is checked
    (and refreshed if due), the transformation throws, and the client is
    answered 500 without a call of the backend. *)
Theorem unusable_body_500 (w : World) (req : Request)
  (tokenState tokenState' : TokenState) (rawBody : string) (body : value) :
  passes_gate req -> readBody req = Ok rawBody ->
  JSON_parse rawBody = Some body -> unusable_body body ->
  ensureValidToken (token_world w) tokenState = (Ok tt, tokenState') ->
  serve w req tokenState = (Some internal_error, tokenState')
  /\ events (handleRequest w req tokenState)
     = [ReadBody; EnsureValidToken; TransformRequestBody].
Proof.
  intros Hg Hr Hp Hu He. destruct (unusable_body_throws _ Hu) as [e Ht].
  unfold serve, handleRequest.
  rewrite (gate_passed _ Hg), Hr, Hp, He, Ht. simpl. auto.
Qed.

End HandlerFacts.

Section HandlerExamples.

Ltac gate_open := split; [reflexivity | exists ""; reflexivity].

Lemma downstream_status_witness :
  let d := handleUpstreamResponse (P := reference)
             {| status := 404; body := Some (["usage limit"], true) |} false in
  (false = false -> code d = 404 \/ (404 = 404 /\ code d = 429))
  /\ (false = true ->
      code d = 200
      \/ (false = false /\ code d = 502
          /\ (Some (["usage limit"], true) = None
              \/ exists chunks,
                   Some (["usage limit"], true) = Some (chunks, false)))).
Proof.
  exact (downstream_status (P := reference)
           {| status := 404; body := Some (["usage limit"], true) |} false).
Defined.

Lemma invalid_json_400_witness :
  handleRequest (P := reference) silent_world (post "{oops") some_state
  = {| events := [ReadBody;
                  Respond {| code := 400; headers := JSON_HEADERS;
                             sent := error_body (P := reference)
                                       "Invalid JSON body" |}];
       rejected := None; final_state := some_state |}.
Proof.
  apply (invalid_json_400 (P := reference) silent_world (post "{oops")
           some_state "{oops");
    [gate_open | reflexivity | reflexivity].
Defined.

Lemma refresh_failure_401_witness :
  handleRequest (P := reference) offline_world (post "{}") loaded_state
  = {| events :=
         [ReadBody; EnsureValidToken;
          Respond {| code := 401; headers := JSON_HEADERS;
                     sent := error_body (P := reference)
                               "OAuth token refresh failed. Re-authenticate." |}];
       rejected := None; final_state := loaded_state |}.
Proof.
  apply (refresh_failure_401 (P := reference) offline_world (post "{}")
           loaded_state loaded_state "{}"
           "Failed to refresh OAuth access token" (JObj []));
    [gate_open | reflexivity | reflexivity | reflexivity].
Defined.


Lemma serve_always_answers_witness :
  exists d,
    serve (P := reference) silent_world (post "{}") loaded_state
    = (Some d, final_state (handleRequest (P := reference) silent_world
                              (post "{}") loaded_state))
    /\ code d = 502.
Proof.
  destruct (serve_always_answers (P := reference) silent_world (post "{}")
              loaded_state) as (d & Hs & _ & _).
  exists d. split; [exact Hs|].
  vm_compute in Hs. injection Hs as <-. reflexivity.
Defined.

Lemma unusable_body_500_witness :
  serve (P := reference) silent_world (post "null") loaded_state
  = (Some (internal_error (P := reference)), loaded_state)
  /\ events (handleRequest (P := reference) silent_world (post "null")
               loaded_state)
     = [ReadBody; EnsureValidToken; TransformRequestBody].
Proof.
  apply (unusable_body_500 (P := reference) silent_world (post "null")
           loaded_state loaded_state "null" JNull);
    [gate_open | reflexivity | reflexivity | now left | reflexivity].
Defined.

End HandlerExamples.
